(** * CodePipeline-to-Slack notification Lambda: model of [src/v1/src/app.js]

    The Lambda receives a CodePipeline state-change event, builds a Slack
    message from it and POSTs that message to a webhook whose address is read
    from Secrets Manager on the first invocation and kept in a module-level
    variable afterwards.

    The model is a shallow embedding: JavaScript values that the code reads
    from the event are [jsval]s, JavaScript numbers are binary64 floats, the
    three module-level [let] variables form the process state [Proc], and the
    calls that leave the process (Secrets Manager, HTTPS, console) are
    recorded in a trace. *)

From Stdlib Require Import ZArith List String Ascii Bool Lia.
From Stdlib Require Import DecimalString PrimFloat Uint63.
Import ListNotations.
Open Scope Z_scope.
Open Scope string_scope.

(** ** JavaScript values *)

(** The values the code can find in a field of the JSON event or in one of
    its own variables: a missing field reads as [undefined], JSON has [null],
    and every field the code formats is a string. *)
Inductive jsval : Type :=
| JUndefined
| JNull
| JStr (s : string).

(** ToBoolean, as used by [if (action)], [if (webhookUrl)]. *)
Definition truthy (v : jsval) : bool :=
  match v with
  | JUndefined | JNull => false
  | JStr s => negb (s =? EmptyString)
  end.

(** ToString, as used by the holes of a template literal. *)
Definition ToString (v : jsval) : string :=
  match v with
  | JUndefined => "undefined"
  | JNull => "null"
  | JStr s => s
  end.

(** The double-quote character, and a template hole written between two of
    them. *)
Definition dquote : string :=
  String (Ascii false true false false false true false false) EmptyString.
Definition quoted (v : jsval) : string := dquote ++ ToString v ++ dquote.

(** [v === "lit"], the comparison a [switch] makes against a string case. *)
Definition strict_eq_str (v : jsval) (lit : string) : bool :=
  match v with
  | JStr s => s =? lit
  | _ => false
  end.

(** Number-to-string of an integer-valued number (decimal digits). *)
Definition show_int (z : Z) : string := NilZero.string_of_int (Z.to_int z).

(** Exceptions the code can raise. *)
Inductive exn : Type :=
| TypeError                       (* property read on undefined, bad argument *)
| SecretsManagerError (code : string).  (* [throw err] of the handler *)

Inductive result (A : Type) : Type :=
| Ok (a : A)
| Throw (e : exn).
Arguments Ok {A} a.
Arguments Throw {A} e.

(** ** Built-ins of the host that the code calls *)

(** [Date_parse s] is the time value of [new Date(s)] for a string [s]:
    milliseconds since the epoch, or NaN.  [Buffer_base64_ascii s] is
    [new Buffer(s, 'base64').toString('ascii')]. *)
Class Host : Type := {
  Date_parse : string -> float;
  Buffer_base64_ascii : string -> string
}.

(** ** Data of the program *)

(** [message.detail] of the event. *)
Record Detail : Type := {
  action : jsval;
  stage : jsval;
  pipeline : jsval;
  state : jsval
}.

(** The event handed to the handler.  [detail = None] is an event object
    without a [detail] member. *)
Record Event : Type := {
  detail_type : jsval;    (* message["detail-type"] *)
  region : jsval;
  time : jsval;
  detail : option Detail
}.

Record Attachment : Type := {
  fallback : string;
  color : string;
  title : string;
  title_link : string;
  text : string;
  footer : string;
  mrkdwn_in : list string;
  ts : float
}.

Record SlackMessage : Type := {
  channel : jsval;
  attachments : list Attachment
}.

(** The constants read from [process.env] when the module is loaded. *)
Record Config : Type := {
  slackChannel : jsval;
  environment : jsval;
  env_region : jsval;
  webhookUrlSecretArn : jsval
}.

(** The module-level [let webhookUrl, secret, decodedBinarySecret]. *)
Record Proc : Type := {
  webhookUrl : jsval;
  secret : jsval;
  decodedBinarySecret : jsval
}.

Definition init_proc : Proc :=
  {| webhookUrl := JUndefined; secret := JUndefined;
     decodedBinarySecret := JUndefined |}.

(** What [postMessage] hands to its callback. *)
Record Response : Type := {
  body : string;
  statusCode : Z;
  statusMessage : string
}.

(** The [data] argument of the [getSecretValue] callback: each member is
    there or not. *)
Record SecretData : Type := {
  SecretString : option string;
  SecretBinary : option string
}.

(** The two arguments [(err, data)] of the [getSecretValue] callback: an
    error with its [code], or the data. *)
Inductive SecretReply : Type :=
| SecretErr (code : string)
| SecretOk (data : SecretData).

(** What the outside answers during one invocation. *)
Record World : Type := {
  secret_reply : SecretReply;
  http_response : Response
}.

(** Calls that leave the process.  The body of the POST is the message
    before [JSON.stringify]. *)
Inductive effect : Type :=
| GetSecretValue (SecretId : jsval)
| HttpsPost (url : string) (message : SlackMessage)
| ConsoleInfo (s : string)
| ConsoleWarn (s : string)
| ConsoleError (s : string).

(** ** Effects: process state, trace, exceptions *)

Record Run (A : Type) : Type := {
  outcome : result A;
  proc : Proc;
  trace : list effect
}.
Arguments outcome {A} r.
Arguments proc {A} r.
Arguments trace {A} r.

Definition M (A : Type) : Type := Proc -> Run A.

Definition ret {A} (a : A) : M A :=
  fun s => {| outcome := Ok a; proc := s; trace := [] |}.

Definition bind {A B} (m : M A) (k : A -> M B) : M B :=
  fun s =>
    let r := m s in
    match outcome r with
    | Ok a =>
        let r' := k a (proc r) in
        {| outcome := outcome r'; proc := proc r';
           trace := (trace r ++ trace r')%list |}
    | Throw e => {| outcome := Throw e; proc := proc r; trace := trace r |}
    end.

Definition throw {A} (e : exn) : M A :=
  fun s => {| outcome := Throw e; proc := s; trace := [] |}.

Definition emit (e : effect) : M unit :=
  fun s => {| outcome := Ok tt; proc := s; trace := [e] |}.

Definition read {A} (f : Proc -> A) : M A :=
  fun s => {| outcome := Ok (f s); proc := s; trace := [] |}.

Definition update (f : Proc -> Proc) : M unit :=
  fun s => {| outcome := Ok tt; proc := f s; trace := [] |}.

Definition lift {A} (r : result A) : M A :=
  match r with
  | Ok a => ret a
  | Throw e => throw e
  end.

Declare Scope js_scope.
Delimit Scope js_scope with js.
Notation "x <- m ;; k" := (bind m (fun x => k))
  (at level 100, m at next level, right associativity) : js_scope.
Notation "m ;;; k" := (bind m (fun _ => k))
  (at level 100, right associativity) : js_scope.
Open Scope js_scope.

Definition set_webhookUrl (v : jsval) : M unit :=
  update (fun s => {| webhookUrl := v; secret := secret s;
                      decodedBinarySecret := decodedBinarySecret s |}).
Definition set_secret (v : jsval) : M unit :=
  update (fun s => {| webhookUrl := webhookUrl s; secret := v;
                      decodedBinarySecret := decodedBinarySecret s |}).
Definition set_decodedBinarySecret (v : jsval) : M unit :=
  update (fun s => {| webhookUrl := webhookUrl s; secret := secret s;
                      decodedBinarySecret := v |}).

(** ** The program *)

Section App.

Context {host : Host}.
Variable cfg : Config.

(** [new Date(v).getTime()]: a string is parsed, [null] converts to the
    number 0, [undefined] gives an invalid date. *)
Definition Date_getTime (v : jsval) : float :=
  match v with
  | JUndefined => nan
  | JNull => 0%float
  | JStr s => Date_parse s
  end.

(** Lines 122-150 of [processEvent]: the defaults of [color] and [icon] and
    the [switch (state)], as the pair [(color, icon)]. *)
Definition severity (state : jsval) : string * string :=
  if strict_eq_str state "STARTED" then ("#0073bb", ":arrows_counterclockwise:")
  else if strict_eq_str state "RESUMED" then ("#0073bb", ":arrows_counterclockwise:")
  else if strict_eq_str state "FAILED" then ("#d13212", ":x:")
  else if strict_eq_str state "SUPERSEDED" then ("#d5dbdb", ":grey_exclamation:")
  else if strict_eq_str state "CANCELED" then ("#d5dbdb", ":grey_exclamation:")
  else if strict_eq_str state "SUCCEEDED" then ("#1d8102", ":heavy_check_mark:")
  else ("#d5dbdb", ":grey_exclamation:").

Definition console_link (region pipeline : jsval) : string :=
  "https://console.aws.amazon.com/codepipeline/home?region=" ++ ToString region
  ++ "#/view/" ++ ToString pipeline.

(** Lines 110-201 of [processEvent]: everything up to the call of
    [postMessage], that is the construction of [slackMessage].  Reading
    [message.detail.action] raises a TypeError when there is no [detail]. *)
Definition render (message : Event) : result SlackMessage :=
  let detailType := detail_type message in
  let region := region message in
  let time := (Date_getTime (time message) / 1000)%float in
  match detail message with
  | None => Throw TypeError
  | Some d =>
      let action := action d in
      let stage := stage d in
      let pipeline := pipeline d in
      let state := state d in
      let color := fst (severity state) in
      let icon := snd (severity state) in
      if truthy action then
        Ok {| channel := slackChannel cfg;
              attachments := [
                {| fallback := "The action " ++ quoted action
                     ++ " of the stage " ++ quoted stage
                     ++ " for CodePipeline " ++ quoted pipeline
                     ++ " in region " ++ quoted region
                     ++ " has " ++ ToString state ++ ".";
                   color := color;
                   title := ToString pipeline ++ " | " ++ ToString stage;
                   title_link := console_link region pipeline;
                   text := icon ++ " " ++ ToString action
                     ++ " *" ++ ToString state ++ "*";
                   footer := ToString detailType ++ " | " ++ ToString region;
                   mrkdwn_in := ["text"];
                   ts := time |} ] |}
      else if truthy stage then
        Ok {| channel := slackChannel cfg;
              attachments := [
                {| fallback := "The stage " ++ quoted stage
                     ++ " for CodePipeline " ++ quoted pipeline
                     ++ " in region " ++ quoted region
                     ++ " has " ++ ToString state ++ ".";
                   color := color;
                   title := ToString pipeline ++ " | " ++ ToString stage;
                   title_link := console_link region pipeline;
                   text := icon ++ " *" ++ ToString state ++ "*";
                   footer := ToString detailType ++ " | " ++ ToString region;
                   mrkdwn_in := ["text"];
                   ts := time |} ] |}
      else
        Ok {| channel := slackChannel cfg;
              attachments := [
                {| fallback := "The CodePipeline " ++ quoted pipeline
                     ++ " in region " ++ quoted region
                     ++ " has " ++ ToString state ++ ".";
                   color := color;
                   title := ToString pipeline;
                   title_link := console_link region pipeline;
                   text := icon ++ " *" ++ ToString state ++ "*";
                   footer := ToString detailType ++ " | " ++ ToString region;
                   mrkdwn_in := ["text"];
                   ts := time |} ] |}
  end.

(** [postMessage(message, callback)]: one POST to the address held in
    [webhookUrl]; the value returned is the object given to the callback.
    [url.parse] raises a TypeError on an argument that is not a string. *)
Definition postMessage (w : World) (message : SlackMessage) : M Response :=
  u <- read webhookUrl ;;
  match u with
  | JStr address =>
      emit (HttpsPost address message) ;;;
      ret (http_response w)
  | _ => throw TypeError
  end.

(** The arrow function that [processEvent] passes to [postMessage] (lines
    203-214); the value returned is the argument given to [callback]. *)
Definition onResponse (response : Response) : M jsval :=
  if (statusCode response <? 400)%Z then
    emit (ConsoleInfo "Message posted successfully") ;;;
    ret JNull
  else if (statusCode response <? 500)%Z then
    emit (ConsoleError ("Error posting message to Slack API: "
                        ++ show_int (statusCode response) ++ " - "
                        ++ statusMessage response)) ;;;
    ret JNull
  else
    ret (JStr ("Server error when processing message: "
               ++ show_int (statusCode response) ++ " - "
               ++ statusMessage response)).

(** [processEvent(message, callback)]; the value returned is the argument
    given to [callback]. *)
Definition processEvent (w : World) (message : Event) : M jsval :=
  slackMessage <- lift (render message) ;;
  response <- postMessage w slackMessage ;;
  onResponse response.

(** The five error codes on which the [getSecretValue] callback rethrows. *)
Definition rethrown (code : string) : bool :=
  (code =? "DecryptionFailureException")
  || (code =? "InternalServiceErrorException")
  || (code =? "InvalidParameterException")
  || (code =? "InvalidRequestException")
  || (code =? "ResourceNotFoundException").

(** The callback given to [client.getSecretValue] (lines 223-260), without
    its last statement [processEvent(event, callback)]. *)
Definition onSecretValue (reply : SecretReply) : M unit :=
  match reply with
  | SecretErr code =>
      emit (ConsoleWarn ("Secrets Manager Error: " ++ code)) ;;;
      if rethrown code then throw (SecretsManagerError code) else ret tt
  | SecretOk data =>
      match SecretString data with
      | Some s => set_secret (JStr s)
      | None =>
          match SecretBinary data with
          | Some b => set_decodedBinarySecret (JStr (Buffer_base64_ascii b))
          | None => throw TypeError
          end
      end
  end ;;;
  s <- read secret ;;
  set_webhookUrl (JStr ("https://" ++ ToString s)).

(** [exports.handler(event, context, callback)]; the value returned is the
    argument given to [callback]. *)
Definition handler (w : World) (event : Event) : M jsval :=
  u <- read webhookUrl ;;
  if truthy u then
    processEvent w event
  else if truthy (webhookUrlSecretArn cfg) then
    emit (GetSecretValue (webhookUrlSecretArn cfg)) ;;;
    onSecretValue (secret_reply w) ;;;
    processEvent w event
  else
    ret (JStr "Hook URL has not been set.").

(** Successive invocations in one process: each starts in the state the
    one before has left, also after an exception (whether the host lets the
    process live on after one is not decided here). *)
Fixpoint invocations (l : list (World * Event)) (s : Proc) : list (Run jsval) :=
  match l with
  | [] => []
  | (w, e) :: l' =>
      let r := handler w e s in
      r :: invocations l' (proc r)
  end.

End App.

(** ** Observations on a run *)

(** The messages that were POSTed. *)
Fixpoint posted (t : list effect) : list SlackMessage :=
  match t with
  | [] => []
  | HttpsPost _ m :: t' => m :: posted t'
  | _ :: t' => posted t'
  end.

(** The addresses that were POSTed to. *)
Fixpoint post_urls (t : list effect) : list string :=
  match t with
  | [] => []
  | HttpsPost u _ :: t' => u :: post_urls t'
  | _ :: t' => post_urls t'
  end.

(** The number of calls to the secret store. *)
Fixpoint secret_calls (t : list effect) : nat :=
  match t with
  | [] => O
  | GetSecretValue _ :: t' => S (secret_calls t')
  | _ :: t' => secret_calls t'
  end.

Definition jsval_eqb (a b : jsval) : bool :=
  match a, b with
  | JUndefined, JUndefined => true
  | JNull, JNull => true
  | JStr s, JStr t => s =? t
  | _, _ => false
  end.

(** The number of invocations of a sequence that leave [webhookUrl] with
    another value than they found, [s] being the state before the first. *)
Fixpoint cache_writes (s : Proc) (rs : list (Run jsval)) : nat :=
  match rs with
  | [] => O
  | r :: rs' =>
      ((if jsval_eqb (webhookUrl s) (webhookUrl (proc r)) then 0 else 1)
       + cache_writes (proc r) rs')%nat
  end.

(** What was written to the console. *)
Fixpoint console (t : list effect) : list effect :=
  match t with
  | [] => []
  | GetSecretValue _ :: t' => console t'
  | HttpsPost _ _ :: t' => console t'
  | x :: t' => x :: console t'
  end.

(** The state of the process after a sequence of invocations. *)
Fixpoint final_proc {host : Host} (cfg : Config) (l : list (World * Event))
         (s : Proc) : Proc :=
  match l with
  | [] => s
  | (w, e) :: l' => final_proc cfg l' (proc (handler cfg w e s))
  end.

(** The three variables agree: nothing has been assigned yet, or the address
    is the one built from [secret]. *)
Definition cache_consistent (s : Proc) : Prop :=
  (webhookUrl s = JUndefined /\ secret s = JUndefined
   /\ decodedBinarySecret s = JUndefined)
  \/ webhookUrl s = JStr ("https://" ++ ToString (secret s)).

(** The codes on which the callback of [getSecretValue] rethrows. *)
Definition rethrown_codes : list string :=
  [ "DecryptionFailureException"; "InternalServiceErrorException";
    "InvalidParameterException"; "InvalidRequestException";
    "ResourceNotFoundException" ].

(** ** A concrete host *)

(** The ECMAScript date-time string format in its two full UTC forms,
    [YYYY-MM-DDTHH:mm:ssZ] and [YYYY-MM-DDTHH:mm:ss.sssZ] (the form of the
    [time] member of a CodePipeline event), and base64 of RFC 4648 read the
    way Node reads it.  They instantiate [Host] where a statement is
    evaluated on concrete text; the general statements hold for every
    [Host]. *)
Module NodeHost.

#[local] Open Scope Z_scope.

Definition digit (c : ascii) : option Z :=
  let n := Z.of_N (N_of_ascii c) in
  if (48 <=? n) && (n <=? 57) then Some (n - 48) else None.

Fixpoint number (cs : list ascii) (acc : Z) : option Z :=
  match cs with
  | [] => Some acc
  | c :: r =>
      match digit c with
      | Some d => number r (10 * acc + d)
      | None => None
      end
  end.

Definition field (pos len : nat) (s : string) : option Z :=
  number (list_ascii_of_string (substring pos len s)) 0.

Definition sep (pos : nat) (c : ascii) (s : string) : bool :=
  match get pos s with
  | Some c' => Ascii.eqb c c'
  | None => false
  end.

(** Days from 1970-01-01 to the given day of the proleptic Gregorian
    calendar (MakeDay of ECMA-262). *)
Definition days_from_civil (y m d : Z) : Z :=
  let y' := if m <=? 2 then y - 1 else y in
  let era := y' / 400 in
  let yoe := y' - era * 400 in
  let mp := (m + 9) mod 12 in
  let doy := (153 * mp + 2) / 5 + d - 1 in
  let doe := yoe * 365 + yoe / 4 - yoe / 100 + doy in
  era * 146097 + doe - 719468.

Definition utc_millis (s : string) : option Z :=
  let n := String.length s in
  let frac := (n =? 24)%nat in
  if ((n =? 20)%nat || frac)
     && sep 4 "-" s && sep 7 "-" s && sep 10 "T" s
     && sep 13 ":" s && sep 16 ":" s && sep (n - 1) "Z" s
     && (if frac then sep 19 "." s else true)
  then
    match field 0 4 s, field 5 2 s, field 8 2 s,
          field 11 2 s, field 14 2 s, field 17 2 s,
          (if frac then field 20 3 s else Some 0) with
    | Some yr, Some mo, Some dy, Some hh, Some mi, Some ss, Some ms =>
        if (1 <=? mo) && (mo <=? 12) && (1 <=? dy) && (dy <=? 31)
           && ((hh <? 24)
               || ((hh =? 24) && (mi =? 0) && (ss =? 0) && (ms =? 0)))
           && (mi <? 60) && (ss <? 60)
        then Some (days_from_civil yr mo dy * 86400000
                   + hh * 3600000 + mi * 60000 + ss * 1000 + ms)
        else None
    | _, _, _, _, _, _, _ => None
    end
  else None.

(** An integer of magnitude below 2^53 as a number. *)
Definition float_of_Z (z : Z) : float :=
  if z <? 0 then (- of_uint63 (Uint63.of_Z (- z)))%float
  else of_uint63 (Uint63.of_Z z).

Definition parse (s : string) : float :=
  match utc_millis s with
  | Some ms => float_of_Z ms
  | None => nan
  end.

(** The value of a base64 character; both alphabets are read. *)
Definition sextet (c : ascii) : option N :=
  let n := N_of_ascii c in
  (if (65 <=? n) && (n <=? 90) then Some (n - 65)
   else if (97 <=? n) && (n <=? 122) then Some (n - 71)
   else if (48 <=? n) && (n <=? 57) then Some (n + 4)
   else if (n =? 43) || (n =? 45) then Some 62
   else if (n =? 47) || (n =? 95) then Some 63
   else None)%N.

(** Characters outside the alphabet are skipped; padding ends the text. *)
Fixpoint sextets (s : string) : list N :=
  match s with
  | EmptyString => []
  | String c r =>
      if Ascii.eqb c "=" then []
      else match sextet c with
           | Some v => v :: sextets r
           | None => sextets r
           end
  end.

Fixpoint octets (l : list N) : list N :=
  (match l with
   | a :: b :: c :: d :: r =>
       (a * 4 + b / 16) :: ((b mod 16) * 16 + c / 4) :: ((c mod 4) * 64 + d)
       :: octets r
   | [a; b; c] => [a * 4 + b / 16; (b mod 16) * 16 + c / 4]
   | [a; b] => [a * 4 + b / 16]
   | _ => []
   end)%N.

(** [toString('ascii')] keeps the low seven bits of each byte. *)
Definition base64_ascii (s : string) : string :=
  string_of_list_ascii
    (map (fun b => ascii_of_N (b mod 128)%N) (octets (sextets s))).

Definition node_host : Host :=
  {| Date_parse := parse; Buffer_base64_ascii := base64_ascii |}.

End NodeHost.

(** ** The severity table as the specification words it *)

Definition spec_severity_table : list (string * (string * string)) :=
  [ ("STARTED", ("#0073bb", ":arrows_counterclockwise:"));
    ("RESUMED", ("#0073bb", ":arrows_counterclockwise:"));
    ("FAILED", ("#d13212", ":x:"));
    ("SUPERSEDED", ("#d5dbdb", ":grey_exclamation:"));
    ("CANCELED", ("#d5dbdb", ":grey_exclamation:"));
    ("SUCCEEDED", ("#1d8102", ":heavy_check_mark:")) ].

Definition spec_default : string * string := ("#d5dbdb", ":grey_exclamation:").

Definition upper_ascii (c : ascii) : ascii :=
  let n := N_of_ascii c in
  if ((97 <=? n) && (n <=? 122))%N then ascii_of_N (n - 32) else c.

Fixpoint toUpperCase (s : string) : string :=
  match s with
  | EmptyString => EmptyString
  | String c r => String (upper_ascii c) (toUpperCase r)
  end.

(** Look a state up in the table after normalising its spelling with
    [norm]; a state that is missing, or not in the table, gets the default
    pair.  With [norm := toUpperCase] the lookup is case-insensitive, with
    the identity it is exact. *)
Definition spec_lookup (norm : string -> string) (state : jsval) : string * string :=
  match state with
  | JStr s =>
      match find (fun row => fst row =? norm s) spec_severity_table with
      | Some row => snd row
      | None => spec_default
      end
  | _ => spec_default
  end.

(** ** Sample inputs *)

Definition sample_cfg : Config :=
  {| slackChannel := JStr "#builds";
     environment := JStr "prod";
     env_region := JStr "us-east-1";
     webhookUrlSecretArn := JStr "arn:aws:secretsmanager:us-east-1:1:secret:hook" |}.

Definition sample_detail : Detail :=
  {| action := JStr "Build"; stage := JStr "S"; pipeline := JStr "P";
     state := JStr "FAILED" |}.

Definition sample_event : Event :=
  {| detail_type := JStr "CodePipeline Action Execution State Change";
     region := JStr "us-east-1";
     time := JStr "1970-01-01T00:00:01.500Z";
     detail := Some sample_detail |}.

Definition respond (code : Z) (msg : string) : Response :=
  {| body := "ok"; statusCode := code; statusMessage := msg |}.

Definition text_secret_world (res : Response) : World :=
  {| secret_reply :=
       SecretOk {| SecretString := Some "hooks.slack.com/services/T/B/x";
                   SecretBinary := None |};
     http_response := res |}.

Definition binary_secret_world (res : Response) : World :=
  {| secret_reply :=
       SecretOk {| SecretString := None;
                   SecretBinary := Some "aG9va3Muc2xhY2suY29tL3NlcnZpY2VzL1QvQi94" |};
     http_response := res |}.

Definition cached_proc : Proc :=
  {| webhookUrl := JStr "https://hooks.slack.com/services/T/B/x";
     secret := JStr "hooks.slack.com/services/T/B/x";
     decodedBinarySecret := JUndefined |}.

(** The message of the sample event. *)
Definition sample_message : SlackMessage :=
  {| channel := JStr "#builds";
     attachments := [
       {| fallback := "The action " ++ dquote ++ "Build" ++ dquote
            ++ " of the stage " ++ dquote ++ "S" ++ dquote
            ++ " for CodePipeline " ++ dquote ++ "P" ++ dquote
            ++ " in region " ++ dquote ++ "us-east-1" ++ dquote
            ++ " has FAILED.";
          color := "#d13212";
          title := "P | S";
          title_link :=
            "https://console.aws.amazon.com/codepipeline/home?region=us-east-1#/view/P";
          text := ":x: Build *FAILED*";
          footer := "CodePipeline Action Execution State Change | us-east-1";
          mrkdwn_in := ["text"];
          ts := 1.5%float |} ] |}.

Definition unconfigured_cfg : Config :=
  {| slackChannel := JStr "#builds"; environment := JStr "prod";
     env_region := JStr "us-east-1"; webhookUrlSecretArn := JUndefined |}.

(** An event given member by member. *)
Definition event_of (dt rg tm act stg pl sta : jsval) : Event :=
  {| detail_type := dt; region := rg; time := tm;
     detail := Some {| action := act; stage := stg; pipeline := pl;
                       state := sta |} |}.

Definition throttled_world (res : Response) : World :=
  {| secret_reply := SecretErr "ThrottlingException"; http_response := res |}.

Definition denied_world (res : Response) : World :=
  {| secret_reply := SecretErr "ResourceNotFoundException";
     http_response := res |}.

Definition no_detail_event : Event :=
  {| detail_type := JStr "Scheduled Event"; region := JStr "us-east-1";
     time := JStr "1970-01-01T00:00:01.500Z"; detail := None |}.

Definition pipeline_event : Event :=
  {| detail_type := JStr "CodePipeline Pipeline Execution State Change";
     region := JStr "us-east-1"; time := JUndefined;
     detail := Some {| action := JUndefined; stage := JUndefined;
                       pipeline := JStr "P"; state := JStr "SUCCEEDED" |} |}.

(** ** Basic facts *)

Lemma prefix_append_char (s u : string) (c : ascii) :
  prefix (s ++ String c EmptyString) (s ++ String c u) = true.
Proof.
  induction s as [|x s IH]; simpl.
  - destruct (ascii_dec c c) as [_|n]; [now destruct u | contradiction].
  - destruct (ascii_dec x x) as [_|n]; [exact IH | contradiction].
Qed.

(** The [switch] of the code is the exact lookup in the table. *)
Lemma severity_exact (v : jsval) : severity v = spec_lookup (fun s => s) v.
Proof.
  destruct v as [| |s]; try reflexivity.
  unfold severity, spec_lookup, strict_eq_str, spec_severity_table, find, fst, snd.
  rewrite !(String.eqb_sym _ s).
  repeat match goal with |- context [s =? ?k] => destruct (s =? k) end;
    reflexivity.
Qed.

Section Facts.

Context {host : Host}.
Variable cfg : Config.

(** With a [detail] member the construction of the message succeeds, and the
    attachment carries the colour, the icon and the time computed before
    the three-way choice. *)
Lemma render_detail (e : Event) (d : Detail) :
  detail e = Some d ->
  exists a,
    render cfg e = Ok {| channel := slackChannel cfg; attachments := [a] |}
    /\ color a = fst (severity (state d))
    /\ prefix (snd (severity (state d)) ++ " ") (text a) = true
    /\ ts a = (Date_getTime (time e) / 1000)%float.
Proof.
  intros Hd. unfold render. rewrite Hd.
  destruct (truthy (action d)); [|destruct (truthy (stage d))];
    eexists; (split; [reflexivity|]); simpl;
    (split; [reflexivity|]); (split; [|reflexivity]);
    apply prefix_append_char.
Qed.

Lemma render_no_detail (e : Event) :
  detail e = None -> render cfg e = Throw TypeError.
Proof. intros Hd. unfold render. now rewrite Hd. Qed.

End Facts.

(** ** What one call does *)

Ltac run_monad :=
  unfold bind, lift, read, emit, update, ret, throw; simpl.

Section Delivery.

Context {host : Host}.
Variable cfg : Config.

Lemma onResponse_run (res : Response) (st : Proc) :
  proc (onResponse res st) = st
  /\ posted (trace (onResponse res st)) = []
  /\ post_urls (trace (onResponse res st)) = []
  /\ secret_calls (trace (onResponse res st)) = O.
Proof.
  unfold onResponse.
  destruct (statusCode res <? 400)%Z; [|destruct (statusCode res <? 500)%Z];
    run_monad; repeat split; reflexivity.
Qed.

(** [processEvent] step by step: the message is built, then posted to the
    address in [webhookUrl], then the response is classified. *)
Lemma processEvent_run (w : World) (e : Event) (st : Proc) :
  processEvent cfg w e st =
  match render cfg e with
  | Throw x => {| outcome := Throw x; proc := st; trace := [] |}
  | Ok m =>
      match webhookUrl st with
      | JStr u =>
          {| outcome := outcome (onResponse (http_response w) st);
             proc := st;
             trace := HttpsPost u m :: trace (onResponse (http_response w) st) |}
      | _ => {| outcome := Throw TypeError; proc := st; trace := [] |}
      end
  end.
Proof.
  unfold processEvent, postMessage. run_monad.
  destruct (render cfg e) as [m|x]; simpl; [|reflexivity].
  destruct (webhookUrl st) as [| |u]; simpl; try reflexivity.
  destruct (onResponse_run (http_response w) st) as (Hp & _).
  rewrite Hp. reflexivity.
Qed.

Lemma processEvent_proc (w : World) (e : Event) (st : Proc) :
  proc (processEvent cfg w e st) = st.
Proof.
  rewrite processEvent_run.
  destruct (render cfg e); [destruct (webhookUrl st)|]; reflexivity.
Qed.

Lemma processEvent_secret_calls (w : World) (e : Event) (st : Proc) :
  secret_calls (trace (processEvent cfg w e st)) = O.
Proof.
  rewrite processEvent_run.
  destruct (render cfg e); [destruct (webhookUrl st)|]; simpl; try reflexivity.
  apply onResponse_run.
Qed.

Lemma processEvent_posted (w : World) (e : Event) (st : Proc) :
  posted (trace (processEvent cfg w e st)) = []
  \/ exists m u,
       render cfg e = Ok m /\ webhookUrl st = JStr u
       /\ posted (trace (processEvent cfg w e st)) = [m]
       /\ post_urls (trace (processEvent cfg w e st)) = [u].
Proof.
  rewrite processEvent_run.
  destruct (render cfg e) as [m|x]; [|now left].
  destruct (webhookUrl st) as [| |u]; try now left.
  right. exists m, u. simpl.
  destruct (onResponse_run (http_response w) st) as (_ & Hm & Hu & _).
  rewrite Hm, Hu. repeat split; reflexivity.
Qed.

(** The callback of [getSecretValue]: when it returns, the address has been
    written and is a non-empty string; when it throws, nothing was written. *)
Lemma onSecretValue_run (reply : SecretReply) (st : Proc) :
  posted (trace (onSecretValue reply st)) = []
  /\ post_urls (trace (onSecretValue reply st)) = []
  /\ secret_calls (trace (onSecretValue reply st)) = O
  /\ match outcome (onSecretValue reply st) with
     | Ok _ =>
         webhookUrl (proc (onSecretValue reply st))
         = JStr ("https://" ++ ToString (secret (proc (onSecretValue reply st))))
     | Throw _ => proc (onSecretValue reply st) = st
     end.
Proof.
  unfold onSecretValue, set_webhookUrl, set_secret, set_decodedBinarySecret.
  destruct reply as [code|data].
  - run_monad. destruct (rethrown code); simpl; repeat split; reflexivity.
  - destruct (SecretString data) as [s|]; [|destruct (SecretBinary data) as [b|]];
      run_monad; repeat split; reflexivity.
Qed.

Lemma handler_cached (w : World) (e : Event) (st : Proc) :
  truthy (webhookUrl st) = true ->
  handler cfg w e st = processEvent cfg w e st.
Proof.
  intros H. unfold handler. run_monad. rewrite H.
  now destruct (processEvent cfg w e st).
Qed.

Lemma handler_unconfigured (w : World) (e : Event) (st : Proc) :
  truthy (webhookUrl st) = false ->
  truthy (webhookUrlSecretArn cfg) = false ->
  handler cfg w e st =
  {| outcome := Ok (JStr "Hook URL has not been set."); proc := st; trace := [] |}.
Proof.
  intros H1 H2. unfold handler. run_monad. rewrite H1, H2. reflexivity.
Qed.

Lemma handler_resolving (w : World) (e : Event) (st : Proc) :
  truthy (webhookUrl st) = false ->
  truthy (webhookUrlSecretArn cfg) = true ->
  handler cfg w e st =
  match outcome (onSecretValue (secret_reply w) st) with
  | Ok _ =>
      {| outcome :=
           outcome (processEvent cfg w e (proc (onSecretValue (secret_reply w) st)));
         proc := proc (onSecretValue (secret_reply w) st);
         trace :=
           (GetSecretValue (webhookUrlSecretArn cfg)
            :: trace (onSecretValue (secret_reply w) st)
            ++ trace (processEvent cfg w e (proc (onSecretValue (secret_reply w) st))))%list |}
  | Throw x =>
      {| outcome := Throw x; proc := st;
         trace := GetSecretValue (webhookUrlSecretArn cfg)
                  :: trace (onSecretValue (secret_reply w) st) |}
  end.
Proof.
  intros H1 H2. unfold handler. run_monad. rewrite H1, H2. run_monad.
  destruct (onSecretValue_run (secret_reply w) st) as (_ & _ & _ & Hs).
  destruct (outcome (onSecretValue (secret_reply w) st)) as [[]|x]; simpl.
  - rewrite processEvent_proc. reflexivity.
  - rewrite Hs. reflexivity.
Qed.

End Delivery.

(** ** What a sequence of calls does *)

Lemma posted_app (a b : list effect) :
  posted (a ++ b) = (posted a ++ posted b)%list.
Proof.
  induction a as [|x a IH]; simpl; [reflexivity|].
  destruct x; simpl; now rewrite IH.
Qed.

Lemma post_urls_app (a b : list effect) :
  post_urls (a ++ b) = (post_urls a ++ post_urls b)%list.
Proof.
  induction a as [|x a IH]; simpl; [reflexivity|].
  destruct x; simpl; now rewrite IH.
Qed.

Lemma jsval_eqb_refl (v : jsval) : jsval_eqb v v = true.
Proof. destruct v; simpl; auto using String.eqb_refl. Qed.

Section Process.

Context {host : Host}.
Variable cfg : Config.

(** Whatever the state and the answers of the outside, an invocation posts
    nothing or exactly the message built from its event, and posts it to the
    address that [webhookUrl] holds when the invocation ends. *)
Lemma handler_posted (w : World) (e : Event) (st : Proc) :
  posted (trace (handler cfg w e st)) = []
  \/ exists m u,
       render cfg e = Ok m
       /\ webhookUrl (proc (handler cfg w e st)) = JStr u
       /\ posted (trace (handler cfg w e st)) = [m]
       /\ post_urls (trace (handler cfg w e st)) = [u].
Proof.
  destruct (truthy (webhookUrl st)) eqn:Hc.
  - rewrite (handler_cached cfg w e st Hc), processEvent_proc.
    apply processEvent_posted.
  - destruct (truthy (webhookUrlSecretArn cfg)) eqn:Ha.
    + rewrite (handler_resolving cfg w e st Hc Ha).
      destruct (onSecretValue_run (secret_reply w) st) as (Hm & Hu & _ & _).
      destruct (outcome (onSecretValue (secret_reply w) st)); simpl.
      * rewrite posted_app, post_urls_app, Hm, Hu. simpl.
        apply processEvent_posted.
      * left. exact Hm.
    + rewrite (handler_unconfigured cfg w e st Hc Ha). now left.
Qed.

(** An invocation leaves [webhookUrl] as it found it, or found it falsy and
    leaves it truthy. *)
Lemma handler_webhookUrl (w : World) (e : Event) (st : Proc) :
  proc (handler cfg w e st) = st
  \/ (truthy (webhookUrl st) = false
      /\ truthy (webhookUrl (proc (handler cfg w e st))) = true).
Proof.
  destruct (truthy (webhookUrl st)) eqn:Hc.
  - left. rewrite (handler_cached cfg w e st Hc). apply processEvent_proc.
  - destruct (truthy (webhookUrlSecretArn cfg)) eqn:Ha.
    + rewrite (handler_resolving cfg w e st Hc Ha).
      destruct (onSecretValue_run (secret_reply w) st) as (_ & _ & _ & Hs).
      destruct (outcome (onSecretValue (secret_reply w) st)); simpl.
      * right. split; [reflexivity|]. rewrite Hs. reflexivity.
      * now left.
    + left. now rewrite (handler_unconfigured cfg w e st Hc Ha).
Qed.

Lemma invocations_length (l : list (World * Event)) (st : Proc) :
  List.length (invocations cfg l st) = List.length l.
Proof.
  revert st. induction l as [|[w e] l IH]; intros st; simpl;
    [reflexivity | now rewrite IH].
Qed.

(** Once [webhookUrl] is truthy, every invocation goes through the first
    branch of the handler. *)
Lemma invocations_cached (l : list (World * Event)) (st : Proc) :
  truthy (webhookUrl st) = true ->
  Forall (fun r =>
            proc r = st
            /\ secret_calls (trace r) = O
            /\ (forall u, In u (post_urls (trace r)) -> webhookUrl st = JStr u))
         (invocations cfg l st).
Proof.
  intros Hc. induction l as [|[w e] l IH]; cbn [invocations]; [constructor|].
  rewrite (handler_cached cfg w e st Hc), processEvent_proc.
  constructor; [|exact IH].
  split; [apply processEvent_proc|]. split; [apply processEvent_secret_calls|].
  intros u Hu.
  destruct (processEvent_posted cfg w e st) as [Hn|(m & u' & _ & Hw & Hm & Hus)].
  - exfalso. revert Hu Hn. rewrite processEvent_run.
    destruct (render cfg e); [destruct (webhookUrl st)|]; simpl; try tauto.
    discriminate.
  - rewrite Hus in Hu. destruct Hu as [<-|[]]. exact Hw.
Qed.

Lemma cache_writes_cached (l : list (World * Event)) (st : Proc) :
  truthy (webhookUrl st) = true ->
  cache_writes st (invocations cfg l st) = O.
Proof.
  intros Hc. induction l as [|[w e] l IH]; cbn [invocations cache_writes];
    [reflexivity|].
  rewrite (handler_cached cfg w e st Hc), processEvent_proc.
  rewrite jsval_eqb_refl. exact IH.
Qed.

Lemma cache_writes_once (l : list (World * Event)) (st : Proc) :
  (cache_writes st (invocations cfg l st) <= 1)%nat.
Proof.
  revert st. induction l as [|[w e] l IH]; intros st;
    cbn [invocations cache_writes]; [lia|].
  destruct (handler_webhookUrl w e st) as [Hs|[_ Ht]].
  - rewrite Hs, jsval_eqb_refl. apply IH.
  - rewrite (cache_writes_cached l _ Ht).
    destruct (jsval_eqb _ _); lia.
Qed.

End Process.

(** * The claims of the specification *)

(** ** Event renderer *)

(** C1, as stated, fails: the claim has the severity table case-insensitive
    on the state, but the [switch] compares with [===].  The state
    ["failed"] gets the default gray pair from the code and the red pair
    from a case-insensitive table, and the message of such an event is
    gray. *)
Lemma C1_case_insensitive_counterexample :
  severity (JStr "failed") = ("#d5dbdb", ":grey_exclamation:")
  /\ spec_lookup toUpperCase (JStr "failed") = ("#d13212", ":x:")
  /\ severity (JStr "failed") <> spec_lookup toUpperCase (JStr "failed")
  /\ exists a,
       @render NodeHost.node_host sample_cfg
         {| detail_type := detail_type sample_event;
            region := region sample_event;
            time := time sample_event;
            detail := Some {| action := JStr "Build"; stage := JStr "S";
                              pipeline := JStr "P"; state := JStr "failed" |} |}
       = Ok {| channel := slackChannel sample_cfg; attachments := [a] |}
       /\ color a = "#d5dbdb"
       /\ text a = ":grey_exclamation: Build *failed*".
Proof.
  split; [reflexivity|]. split; [reflexivity|]. split; [discriminate|].
  eexists. split; [vm_compute; reflexivity|]. split; reflexivity.
Qed.

(** C1, amended: for every event with a [detail], the severity mapping of
    the renderer is a total table with exact (case-sensitive) keys: the
    strings STARTED and RESUMED give blue and the cycle icon, FAILED red and
    the X icon, SUPERSEDED and CANCELED gray and the warning icon, SUCCEEDED
    green and the check icon, and every other value, other spellings and a
    missing state included, gives the default gray and warning icon.  The
    pair found is the colour of the attachment and the icon that starts its
    text. *)
Theorem C1_severity_exact_table :
  forall (host : Host) (cfg : Config) (e : Event) (d : Detail),
    detail e = Some d ->
    severity (state d) = spec_lookup (fun s => s) (state d)
    /\ exists a,
         render cfg e = Ok {| channel := slackChannel cfg; attachments := [a] |}
         /\ color a = fst (spec_lookup (fun s => s) (state d))
         /\ prefix (snd (spec_lookup (fun s => s) (state d)) ++ " ") (text a) = true.
Proof.
  intros host cfg e d Hd. split; [apply severity_exact|].
  destruct (render_detail cfg e d Hd) as (a & Hr & Hc & Hi & _).
  exists a. rewrite <- severity_exact. auto.
Qed.

Lemma C1_severity_exact_table_witness :
  detail sample_event = Some sample_detail
  /\ severity (JStr "FAILED") = ("#d13212", ":x:")
  /\ exists a,
       @render NodeHost.node_host sample_cfg sample_event
       = Ok {| channel := JStr "#builds"; attachments := [a] |}
       /\ color a = "#d13212"
       /\ prefix ":x: " (text a) = true.
Proof.
  split; [reflexivity|].
  exact (C1_severity_exact_table NodeHost.node_host sample_cfg sample_event
           sample_detail eq_refl).
Defined.

(** C2: the three message shapes exclude one another and the first test
    that succeeds decides.  Presence is what [if (action)] and [if (stage)]
    test.  For an event with a [detail] whose pipeline is the string [p]:
    with an action, the title is [p | stage] and the text is the icon, the
    action and the state between asterisks; with no action and a stage, the
    title is the same and the text is the icon and the state between
    asterisks, without the action; with neither, the title is [p]. *)
Theorem C2_granularity_first_match :
  forall (host : Host) (cfg : Config) (e : Event) (d : Detail) (p : string),
    detail e = Some d ->
    pipeline d = JStr p ->
    exists a,
      render cfg e = Ok {| channel := slackChannel cfg; attachments := [a] |}
      /\ (truthy (action d) = true ->
          title a = p ++ " | " ++ ToString (stage d)
          /\ text a = snd (severity (state d)) ++ " " ++ ToString (action d)
                      ++ " *" ++ ToString (state d) ++ "*")
      /\ (truthy (action d) = false -> truthy (stage d) = true ->
          title a = p ++ " | " ++ ToString (stage d)
          /\ text a = snd (severity (state d)) ++ " *" ++ ToString (state d) ++ "*")
      /\ (truthy (action d) = false -> truthy (stage d) = false ->
          title a = p
          /\ text a = snd (severity (state d)) ++ " *" ++ ToString (state d) ++ "*").
Proof.
  intros host cfg e d p Hd Hp. unfold render. rewrite Hd, Hp.
  destruct (truthy (action d)); [|destruct (truthy (stage d))];
    eexists; (split; [reflexivity|]); simpl;
    repeat split; intros; try discriminate; reflexivity.
Qed.

Lemma C2_granularity_first_match_witness :
  exists a,
    @render NodeHost.node_host sample_cfg sample_event
    = Ok {| channel := JStr "#builds"; attachments := [a] |}
    /\ title a = "P | S"
    /\ text a = ":x: Build *FAILED*".
Proof.
  destruct (C2_granularity_first_match NodeHost.node_host sample_cfg
              sample_event sample_detail "P" eq_refl eq_refl)
    as (a & Hr & Ha & _).
  exists a. split; [exact Hr|]. exact (Ha eq_refl).
Defined.

(** C10: an action that is the empty string is no action.  The message
    built, and the whole invocation, are those of the same event without
    the [action] member: the title is [pipeline | stage] when the stage is
    truthy and the pipeline alone when it is empty or missing too, and the
    text has the icon and the state only. *)
Theorem C10_empty_action_falls_through :
  forall (host : Host) (cfg : Config) (w : World) (st : Proc)
         (dt rg tm stg pl sta : jsval),
    render cfg (event_of dt rg tm (JStr EmptyString) stg pl sta)
    = render cfg (event_of dt rg tm JUndefined stg pl sta)
    /\ handler cfg w (event_of dt rg tm (JStr EmptyString) stg pl sta) st
       = handler cfg w (event_of dt rg tm JUndefined stg pl sta) st
    /\ exists a,
         render cfg (event_of dt rg tm (JStr EmptyString) stg pl sta)
         = Ok {| channel := slackChannel cfg; attachments := [a] |}
         /\ title a = (if truthy stg then ToString pl ++ " | " ++ ToString stg
                       else ToString pl)
         /\ text a = snd (severity sta) ++ " *" ++ ToString sta ++ "*".
Proof.
  intros host cfg w st dt rg tm stg pl sta.
  assert (Hr : render cfg (event_of dt rg tm (JStr EmptyString) stg pl sta)
               = render cfg (event_of dt rg tm JUndefined stg pl sta))
    by reflexivity.
  split; [exact Hr|]. split.
  - unfold handler, processEvent. rewrite Hr. reflexivity.
  - unfold render, event_of; simpl.
    destruct (truthy stg); eexists; repeat split; reflexivity.
Qed.

(** C5: the [ts] of the attachment is the time value of the event's [time],
    in milliseconds, divided by 1000 as a number, with no rounding step; the
    time ["1970-01-01T00:00:01.500Z"] is 1500 milliseconds and is rendered
    as 1.5, not as 1500. *)
Theorem C5_timestamp_epoch_seconds :
  (forall (host : Host) (cfg : Config) (e : Event) (d : Detail),
      detail e = Some d ->
      exists a,
        render cfg e = Ok {| channel := slackChannel cfg; attachments := [a] |}
        /\ ts a = (Date_getTime (time e) / 1000)%float)
  /\ (forall (cfg : Config) (dt rg : jsval) (d : Detail),
        exists a,
          @render NodeHost.node_host cfg
            {| detail_type := dt; region := rg;
               time := JStr "1970-01-01T00:00:01.500Z"; detail := Some d |}
          = Ok {| channel := slackChannel cfg; attachments := [a] |}
          /\ @Date_getTime NodeHost.node_host (JStr "1970-01-01T00:00:01.500Z")
             = 1500%float
          /\ ts a = 1.5%float
          /\ ts a <> 1500%float).
Proof.
  split.
  - intros host cfg e d Hd.
    destruct (render_detail cfg e d Hd) as (a & Hr & _ & _ & Ht).
    exists a. auto.
  - intros cfg dt rg d.
    destruct (@render_detail NodeHost.node_host cfg
                {| detail_type := dt; region := rg;
                   time := JStr "1970-01-01T00:00:01.500Z"; detail := Some d |}
                d eq_refl) as (a & Hr & _ & _ & Ht).
    exists a. split; [exact Hr|]. rewrite Ht.
    split; [vm_compute; reflexivity|].
    split; [vm_compute; reflexivity|].
    vm_compute. intros H. discriminate H.
Qed.

Lemma C5_timestamp_epoch_seconds_witness :
  exists a,
    @render NodeHost.node_host sample_cfg sample_event
    = Ok {| channel := JStr "#builds"; attachments := [a] |}
    /\ ts a = (@Date_getTime NodeHost.node_host (time sample_event) / 1000)%float.
Proof.
  exact (proj1 C5_timestamp_epoch_seconds NodeHost.node_host sample_cfg
           sample_event sample_detail eq_refl).
Defined.

(** A state that is none of the six keys of the table gets the default. *)
Lemma severity_default (v : jsval) :
  (forall k, In k (map fst spec_severity_table) -> v <> JStr k) ->
  severity v = spec_default.
Proof.
  intros H. destruct v as [| |s]; try reflexivity.
  unfold severity, strict_eq_str.
  repeat match goal with
         | |- context [s =? ?k] =>
             destruct (String.eqb_spec s k) as [->|_];
             [exfalso; refine (H _ _ eq_refl); simpl; tauto|]
         end.
  reflexivity.
Qed.

Lemma onResponse_returns (res : Response) (st : Proc) :
  exists v, outcome (onResponse res st) = Ok v.
Proof.
  unfold onResponse.
  destruct (statusCode res <? 400)%Z; [|destruct (statusCode res <? 500)%Z];
    run_monad; eexists; reflexivity.
Qed.

(** C6: for every event that has a [detail], the construction of the message
    does not throw and gives one message with one attachment; a state that
    is missing or is none of the six names gets the default gray and warning
    icon; and [processEvent], with an address to post to, posts that one
    message and returns to its callback. *)
Theorem C6_render_never_throws :
  forall (host : Host) (cfg : Config) (e : Event) (d : Detail),
    detail e = Some d ->
    exists a,
      render cfg e = Ok {| channel := slackChannel cfg; attachments := [a] |}
      /\ ((forall k, In k (map fst spec_severity_table) -> state d <> JStr k) ->
          color a = "#d5dbdb" /\ prefix ":grey_exclamation: " (text a) = true)
      /\ (forall (w : World) (st : Proc) (u : string),
             webhookUrl st = JStr u ->
             posted (trace (processEvent cfg w e st))
             = [ {| channel := slackChannel cfg; attachments := [a] |} ]
             /\ exists v, outcome (processEvent cfg w e st) = Ok v).
Proof.
  intros host cfg e d Hd.
  destruct (render_detail cfg e d Hd) as (a & Hr & Hc & Hi & _).
  exists a. split; [exact Hr|]. split.
  - intros Hk. rewrite (severity_default _ Hk) in Hc, Hi. auto.
  - intros w st u Hu. rewrite processEvent_run, Hr, Hu. simpl.
    destruct (onResponse_run (http_response w) st) as (_ & Hm & _).
    rewrite Hm. split; [reflexivity|]. apply onResponse_returns.
Qed.

Lemma C6_render_never_throws_witness :
  exists a,
    @render NodeHost.node_host sample_cfg
      {| detail_type := JStr "CodePipeline Pipeline Execution State Change";
         region := JStr "us-east-1"; time := JUndefined;
         detail := Some {| action := JUndefined; stage := JUndefined;
                           pipeline := JStr "P"; state := JUndefined |} |}
    = Ok {| channel := JStr "#builds"; attachments := [a] |}
    /\ color a = "#d5dbdb"
    /\ prefix ":grey_exclamation: " (text a) = true.
Proof.
  destruct (C6_render_never_throws NodeHost.node_host sample_cfg
              {| detail_type := JStr "CodePipeline Pipeline Execution State Change";
                 region := JStr "us-east-1"; time := JUndefined;
                 detail := Some {| action := JUndefined; stage := JUndefined;
                                   pipeline := JStr "P"; state := JUndefined |} |}
              _ eq_refl) as (a & Hr & Hk & _).
  exists a. split; [exact Hr|]. apply Hk.
  intros k _. discriminate.
Defined.

(** C9: the message is a function of the event and of the configuration
    alone.  Two invocations on the same event, in whatever states of the
    process and with whatever answers from the secret store and from the
    webhook, post the same message, one each, and it is the one [render]
    builds. *)
Theorem C9_render_deterministic :
  forall (host : Host) (cfg : Config) (e : Event) (w1 w2 : World)
         (st1 st2 : Proc) (m1 m2 : SlackMessage),
    In m1 (posted (trace (handler cfg w1 e st1))) ->
    In m2 (posted (trace (handler cfg w2 e st2))) ->
    m1 = m2
    /\ render cfg e = Ok m1
    /\ posted (trace (handler cfg w1 e st1)) = [m1]
    /\ posted (trace (handler cfg w2 e st2)) = [m2].
Proof.
  intros host cfg e w1 w2 st1 st2 m1 m2 H1 H2.
  destruct (handler_posted cfg w1 e st1) as [E1|(a1 & u1 & R1 & _ & P1 & _)];
    [rewrite E1 in H1; contradiction|].
  destruct (handler_posted cfg w2 e st2) as [E2|(a2 & u2 & R2 & _ & P2 & _)];
    [rewrite E2 in H2; contradiction|].
  rewrite P1 in H1. rewrite P2 in H2.
  destruct H1 as [<-|[]]. destruct H2 as [<-|[]].
  assert (a1 = a2) by congruence. subst a2. auto.
Qed.

Lemma C9_render_deterministic_witness :
  sample_message = sample_message
  /\ @render NodeHost.node_host sample_cfg sample_event = Ok sample_message
  /\ posted (trace (@handler NodeHost.node_host sample_cfg
                      (text_secret_world (respond 200 "OK")) sample_event
                      init_proc)) = [sample_message]
  /\ posted (trace (@handler NodeHost.node_host sample_cfg
                      (binary_secret_world (respond 503 "Service Unavailable"))
                      sample_event cached_proc)) = [sample_message].
Proof.
  apply (C9_render_deterministic NodeHost.node_host sample_cfg sample_event
           (text_secret_world (respond 200 "OK"))
           (binary_secret_world (respond 503 "Service Unavailable"))
           init_proc cached_proc sample_message sample_message);
    vm_compute; left; reflexivity.
Defined.

(** ** Delivery and the handler *)

(** C4: whenever [processEvent] has posted, the value it gives to the
    callback is decided by the status of the response: below 400, [null];
    from 400 to 499, [null] again, the error being written to the console
    only; from 500 on, the text with the status and the status message. *)
Theorem C4_status_classification :
  forall (host : Host) (cfg : Config) (w : World) (e : Event) (st : Proc),
    posted (trace (processEvent cfg w e st)) <> [] ->
    (statusCode (http_response w) < 400 ->
     outcome (processEvent cfg w e st) = Ok JNull)
    /\ (400 <= statusCode (http_response w) < 500 ->
        outcome (processEvent cfg w e st) = Ok JNull
        /\ In (ConsoleError ("Error posting message to Slack API: "
                             ++ show_int (statusCode (http_response w)) ++ " - "
                             ++ statusMessage (http_response w)))
              (trace (processEvent cfg w e st)))
    /\ (500 <= statusCode (http_response w) ->
        outcome (processEvent cfg w e st)
        = Ok (JStr ("Server error when processing message: "
                    ++ show_int (statusCode (http_response w)) ++ " - "
                    ++ statusMessage (http_response w)))).
Proof.
  intros host cfg w e st. rewrite processEvent_run.
  destruct (render cfg e) as [m|x]; [|intros H; now contradiction H].
  destruct (webhookUrl st) as [| |u]; try (intros H; now contradiction H).
  intros _. cbn [outcome trace]. unfold onResponse.
  destruct (Z.ltb_spec (statusCode (http_response w)) 400);
    [|destruct (Z.ltb_spec (statusCode (http_response w)) 500)];
    run_monad; repeat split; intros; try lia; auto.
Qed.

Lemma C4_status_classification_witness :
  outcome (@processEvent NodeHost.node_host sample_cfg
             (text_secret_world (respond 200 "OK")) sample_event cached_proc)
  = Ok JNull
  /\ outcome (@processEvent NodeHost.node_host sample_cfg
                (text_secret_world (respond 404 "Not Found")) sample_event
                cached_proc)
     = Ok JNull
  /\ outcome (@processEvent NodeHost.node_host sample_cfg
                (text_secret_world (respond 503 "Service Unavailable"))
                sample_event cached_proc)
     = Ok (JStr "Server error when processing message: 503 - Service Unavailable").
Proof.
  split; [|split].
  - refine (proj1 (C4_status_classification NodeHost.node_host sample_cfg
                     (text_secret_world (respond 200 "OK")) sample_event
                     cached_proc _) _).
    + vm_compute. discriminate.
    + unfold text_secret_world, respond; cbn [http_response statusCode]; lia.
  - refine (proj1 (proj1 (proj2 (C4_status_classification NodeHost.node_host
                     sample_cfg (text_secret_world (respond 404 "Not Found"))
                     sample_event cached_proc _)) _)).
    + vm_compute. discriminate.
    + unfold text_secret_world, respond; cbn [http_response statusCode]; lia.
  - refine (proj2 (proj2 (C4_status_classification NodeHost.node_host
                     sample_cfg
                     (text_secret_world (respond 503 "Service Unavailable"))
                     sample_event cached_proc _)) _).
    + vm_compute. discriminate.
    + unfold text_secret_world, respond; cbn [http_response statusCode]; lia.
Defined.

(** C7: with no address in [webhookUrl] (nothing in the code sets one from
    the configuration) and no secret identifier configured, every
    invocation of a sequence gives the fixed text to the callback as its
    error, calls neither the secret store nor the webhook, writes nothing to
    the console and leaves the process as it was. *)
Theorem C7_unconfigured_fails :
  forall (host : Host) (cfg : Config) (st : Proc) (l : list (World * Event)),
    truthy (webhookUrl st) = false ->
    truthy (webhookUrlSecretArn cfg) = false ->
    List.length (invocations cfg l st) = List.length l
    /\ Forall (fun r =>
                 outcome r = Ok (JStr "Hook URL has not been set.")
                 /\ trace r = []
                 /\ proc r = st)
              (invocations cfg l st).
Proof.
  intros host cfg st l Hu Ha. split; [apply invocations_length|].
  induction l as [|[w e] l IH]; cbn [invocations]; [constructor|].
  rewrite (handler_unconfigured cfg w e st Hu Ha). cbn [proc].
  constructor; [repeat split | exact IH].
Qed.

Lemma C7_unconfigured_fails_witness :
  List.length
    (@invocations NodeHost.node_host unconfigured_cfg
       [ (text_secret_world (respond 200 "OK"), sample_event);
         (binary_secret_world (respond 503 "Service Unavailable"), sample_event) ]
       init_proc) = 2%nat
  /\ Forall (fun r =>
               outcome r = Ok (JStr "Hook URL has not been set.")
               /\ trace r = []
               /\ proc r = init_proc)
            (@invocations NodeHost.node_host unconfigured_cfg
               [ (text_secret_world (respond 200 "OK"), sample_event);
                 (binary_secret_world (respond 503 "Service Unavailable"),
                  sample_event) ]
               init_proc).
Proof.
  apply (C7_unconfigured_fails NodeHost.node_host unconfigured_cfg init_proc);
    reflexivity.
Defined.

(** C8: in a sequence of invocations of one process the value of
    [webhookUrl] changes at most once; and from a state in which it is set,
    every invocation leaves the whole state as it is, calls the secret store
    zero times, and posts to the address held. *)
Theorem C8_cache_written_once :
  forall (host : Host) (cfg : Config) (l : list (World * Event)) (st : Proc),
    (cache_writes st (invocations cfg l st) <= 1)%nat
    /\ (truthy (webhookUrl st) = true ->
        cache_writes st (invocations cfg l st) = O
        /\ Forall (fun r =>
                     proc r = st
                     /\ secret_calls (trace r) = O
                     /\ (forall u, In u (post_urls (trace r)) ->
                                   webhookUrl st = JStr u))
                  (invocations cfg l st)).
Proof.
  intros host cfg l st. split; [apply cache_writes_once|].
  intros Hc. split; [now apply cache_writes_cached | now apply invocations_cached].
Qed.

Lemma C8_cache_written_once_witness :
  proc (@handler NodeHost.node_host sample_cfg
          (text_secret_world (respond 200 "OK")) sample_event init_proc)
  = cached_proc
  /\ Forall (fun r =>
               proc r = cached_proc
               /\ secret_calls (trace r) = O
               /\ (forall u, In u (post_urls (trace r)) ->
                             webhookUrl cached_proc = JStr u))
            (@invocations NodeHost.node_host sample_cfg
               [ (binary_secret_world (respond 503 "Service Unavailable"),
                  sample_event);
                 (text_secret_world (respond 200 "OK"), sample_event) ]
               cached_proc).
Proof.
  split; [reflexivity|].
  apply (C8_cache_written_once NodeHost.node_host sample_cfg
           [ (binary_secret_world (respond 503 "Service Unavailable"),
              sample_event);
             (text_secret_world (respond 200 "OK"), sample_event) ]
           cached_proc).
  reflexivity.
Defined.

(** A secret that comes in binary form is decoded into
    [decodedBinarySecret], but the address is built from [secret], which the
    binary branch leaves undefined. *)
Lemma binary_secret_address (host : Host) (cfg : Config) (w : World)
      (e : Event) (st : Proc) (b : string) :
  truthy (webhookUrl st) = false ->
  truthy (webhookUrlSecretArn cfg) = true ->
  secret_reply w = SecretOk {| SecretString := None; SecretBinary := Some b |} ->
  webhookUrl (proc (handler cfg w e st)) = JStr ("https://" ++ ToString (secret st))
  /\ decodedBinarySecret (proc (handler cfg w e st)) = JStr (Buffer_base64_ascii b).
Proof.
  intros Hu Ha Hw. rewrite (handler_resolving cfg w e st Hu Ha), Hw.
  split; reflexivity.
Qed.

(** C3: on a secret in binary form the handler decodes the value, yet the
    address it stores and posts to is ["https://undefined"]: the decoded
    text is not used. *)
Theorem C3_binary_secret_unused :
  webhookUrl (proc (@handler NodeHost.node_host sample_cfg
                      (binary_secret_world (respond 200 "OK")) sample_event
                      init_proc))
  = JStr "https://undefined"
  /\ decodedBinarySecret
       (proc (@handler NodeHost.node_host sample_cfg
                (binary_secret_world (respond 200 "OK")) sample_event init_proc))
     = JStr "hooks.slack.com/services/T/B/x"
  /\ post_urls
       (trace (@handler NodeHost.node_host sample_cfg
                 (binary_secret_world (respond 200 "OK")) sample_event init_proc))
     = ["https://undefined"]
  /\ post_urls
       (trace (@handler NodeHost.node_host sample_cfg
                 (text_secret_world (respond 200 "OK")) sample_event init_proc))
     = ["https://hooks.slack.com/services/T/B/x"].
Proof. repeat split; vm_compute; reflexivity. Qed.

(** * Further properties of the code *)

(** ** More on one call *)

Lemma secret_calls_app (a b : list effect) :
  secret_calls (a ++ b) = (secret_calls a + secret_calls b)%nat.
Proof.
  induction a as [|x a IH]; simpl; [reflexivity|].
  destruct x; simpl; now rewrite IH.
Qed.

Lemma rethrown_codes_spec (code : string) :
  rethrown code = true <-> In code rethrown_codes.
Proof.
  unfold rethrown, rethrown_codes. simpl.
  rewrite !orb_true_iff, !String.eqb_eq. intuition congruence.
Qed.

Section MoreDelivery.

Context {host : Host}.
Variable cfg : Config.

(** The classification reads the response only. *)
Lemma onResponse_same (res : Response) (st st' : Proc) :
  outcome (onResponse res st) = outcome (onResponse res st')
  /\ trace (onResponse res st) = trace (onResponse res st').
Proof.
  unfold onResponse.
  destruct (statusCode res <? 400)%Z; [|destruct (statusCode res <? 500)%Z];
    run_monad; split; reflexivity.
Qed.

Lemma processEvent_delivered (w : World) (e : Event) (st : Proc) :
  posted (trace (processEvent cfg w e st)) <> [] ->
  exists m u,
    render cfg e = Ok m /\ webhookUrl st = JStr u
    /\ processEvent cfg w e st
       = {| outcome := outcome (onResponse (http_response w) st);
            proc := st;
            trace := HttpsPost u m :: trace (onResponse (http_response w) st) |}.
Proof.
  rewrite processEvent_run.
  destruct (render cfg e) as [m|x]; [|intros H; now contradiction H].
  destruct (webhookUrl st) as [| |u]; try (intros H; now contradiction H).
  intros _. exists m, u. auto.
Qed.

(** An invocation that posted ends with the address set, and gives its
    callback what the classification of the response gives. *)
Lemma handler_delivered (w : World) (e : Event) (st : Proc) :
  posted (trace (handler cfg w e st)) <> [] ->
  outcome (handler cfg w e st) = outcome (onResponse (http_response w) st)
  /\ truthy (webhookUrl (proc (handler cfg w e st))) = true.
Proof.
  destruct (truthy (webhookUrl st)) eqn:Hc.
  - rewrite (handler_cached cfg w e st Hc). intros Hp.
    destruct (processEvent_delivered w e st Hp) as (m & u & _ & _ & ->).
    cbn [outcome proc]. auto.
  - destruct (truthy (webhookUrlSecretArn cfg)) eqn:Ha.
    + rewrite (handler_resolving cfg w e st Hc Ha).
      destruct (onSecretValue_run (secret_reply w) st) as (Hm & _ & _ & Hs).
      destruct (outcome (onSecretValue (secret_reply w) st)); cbn [outcome proc trace].
      * change (posted (GetSecretValue ?a :: ?t)) with (posted t).
        rewrite posted_app, Hm. cbn [app]. intros Hp.
        destruct (processEvent_delivered w e _ Hp) as (m & u & _ & _ & ->).
        cbn [outcome]. rewrite Hs. split; [apply onResponse_same | reflexivity].
      * intros Hp. now contradiction Hp.
    + rewrite (handler_unconfigured cfg w e st Hc Ha).
      intros Hp. now contradiction Hp.
Qed.

End MoreDelivery.

(** ** The secret store *)

(** X1: when the secret store answers with one of the five codes the
    callback names, the handler rethrows: the exception carries the code,
    the store was called once, the code was written as a warning, nothing
    was posted and the variables of the process are as before. *)
Theorem X1_named_secret_error_rethrown :
  forall (host : Host) (cfg : Config) (w : World) (e : Event) (st : Proc)
         (code : string),
    truthy (webhookUrl st) = false ->
    truthy (webhookUrlSecretArn cfg) = true ->
    secret_reply w = SecretErr code ->
    In code rethrown_codes ->
    handler cfg w e st
    = {| outcome := Throw (SecretsManagerError code);
         proc := st;
         trace := [ GetSecretValue (webhookUrlSecretArn cfg);
                    ConsoleWarn ("Secrets Manager Error: " ++ code) ] |}.
Proof.
  intros host cfg w e st code Hu Ha Hw Hc.
  apply rethrown_codes_spec in Hc.
  rewrite (handler_resolving cfg w e st Hu Ha), Hw.
  unfold onSecretValue. run_monad. rewrite Hc. reflexivity.
Qed.

Lemma X1_named_secret_error_rethrown_witness :
  @handler NodeHost.node_host sample_cfg (denied_world (respond 200 "OK"))
    sample_event init_proc
  = {| outcome := Throw (SecretsManagerError "ResourceNotFoundException");
       proc := init_proc;
       trace := [ GetSecretValue (webhookUrlSecretArn sample_cfg);
                  ConsoleWarn "Secrets Manager Error: ResourceNotFoundException" ] |}.
Proof.
  apply (X1_named_secret_error_rethrown NodeHost.node_host sample_cfg
           (denied_world (respond 200 "OK")) sample_event init_proc
           "ResourceNotFoundException");
    try reflexivity.
  simpl. tauto.
Defined.

(** The address is consistent with [secret] after every invocation. *)
Lemma handler_consistent {host : Host} (cfg : Config) (w : World) (e : Event)
      (st : Proc) :
  cache_consistent st -> cache_consistent (proc (handler cfg w e st)).
Proof.
  intros Hi.
  destruct (truthy (webhookUrl st)) eqn:Hc.
  - now rewrite (handler_cached cfg w e st Hc), processEvent_proc.
  - destruct (truthy (webhookUrlSecretArn cfg)) eqn:Ha.
    + rewrite (handler_resolving cfg w e st Hc Ha).
      destruct (onSecretValue_run (secret_reply w) st) as (_ & _ & _ & Hs).
      destruct (outcome (onSecretValue (secret_reply w) st)); cbn [proc].
      * right. exact Hs.
      * exact Hi.
    + now rewrite (handler_unconfigured cfg w e st Hc Ha).
Qed.

Lemma final_proc_consistent {host : Host} (cfg : Config)
      (l : list (World * Event)) (st : Proc) :
  cache_consistent st -> cache_consistent (final_proc cfg l st).
Proof.
  revert st. induction l as [|[w e] l IH]; intros st Hi; cbn [final_proc].
  - exact Hi.
  - apply IH, handler_consistent, Hi.
Qed.

(** In a process that started with its variables undefined, an address that
    is not set means that [secret] is not set either. *)
Lemma final_proc_unset {host : Host} (cfg : Config) (l : list (World * Event)) :
  truthy (webhookUrl (final_proc cfg l init_proc)) = false ->
  secret (final_proc cfg l init_proc) = JUndefined.
Proof.
  intros Hu.
  destruct (final_proc_consistent cfg l init_proc) as [(_ & Hs & _)|Hw].
  - left. repeat split; reflexivity.
  - exact Hs.
  - rewrite Hw in Hu. discriminate Hu.
Qed.

(** X2: an error of the secret store with any other code is not rethrown.
    In a process started with its variables undefined, whatever invocations
    came before, the handler then stores the address ["https://undefined"],
    goes on to [processEvent], and for an event with a [detail] posts to
    that address and returns to its callback. *)
Theorem X2_other_secret_error_swallowed :
  forall (host : Host) (cfg : Config) (l : list (World * Event)) (w : World)
         (e : Event) (d : Detail) (code : string),
    truthy (webhookUrl (final_proc cfg l init_proc)) = false ->
    truthy (webhookUrlSecretArn cfg) = true ->
    secret_reply w = SecretErr code ->
    ~ In code rethrown_codes ->
    detail e = Some d ->
    webhookUrl (proc (handler cfg w e (final_proc cfg l init_proc)))
    = JStr "https://undefined"
    /\ post_urls (trace (handler cfg w e (final_proc cfg l init_proc)))
       = ["https://undefined"]
    /\ In (ConsoleWarn ("Secrets Manager Error: " ++ code))
          (trace (handler cfg w e (final_proc cfg l init_proc)))
    /\ outcome (handler cfg w e (final_proc cfg l init_proc))
       = outcome (onResponse (http_response w) init_proc).
Proof.
  intros host cfg l w e d code Hu Ha Hw Hc Hd.
  pose proof (final_proc_unset cfg l Hu) as Hs.
  assert (Hr : rethrown code = false).
  { destruct (rethrown code) eqn:E; [|reflexivity].
    apply rethrown_codes_spec in E. contradiction. }
  destruct (render_detail cfg e d Hd) as (a & Hm & _).
  rewrite (handler_resolving cfg w e _ Hu Ha), Hw.
  unfold onSecretValue, set_webhookUrl. run_monad. rewrite Hr. run_monad.
  rewrite Hs. cbn [ToString append].
  rewrite !processEvent_run, Hm. cbn [webhookUrl outcome trace post_urls].
  destruct (onResponse_run (http_response w)
              {| webhookUrl := JStr "https://undefined";
                 secret := JUndefined;
                 decodedBinarySecret :=
                   decodedBinarySecret (final_proc cfg l init_proc) |})
    as (_ & _ & Hpu & _).
  rewrite Hpu. repeat split; auto.
  apply onResponse_same.
Qed.

Lemma X2_other_secret_error_swallowed_witness :
  webhookUrl (proc (@handler NodeHost.node_host sample_cfg
                      (throttled_world (respond 200 "OK")) sample_event
                      init_proc))
  = JStr "https://undefined"
  /\ post_urls (trace (@handler NodeHost.node_host sample_cfg
                         (throttled_world (respond 200 "OK")) sample_event
                         init_proc))
     = ["https://undefined"]
  /\ In (ConsoleWarn "Secrets Manager Error: ThrottlingException")
        (trace (@handler NodeHost.node_host sample_cfg
                  (throttled_world (respond 200 "OK")) sample_event init_proc))
  /\ outcome (@handler NodeHost.node_host sample_cfg
                (throttled_world (respond 200 "OK")) sample_event init_proc)
     = Ok JNull.
Proof.
  apply (X2_other_secret_error_swallowed NodeHost.node_host sample_cfg []
           (throttled_world (respond 200 "OK")) sample_event sample_detail
           "ThrottlingException");
    try reflexivity.
  simpl. intros H. repeat destruct H as [H|H]; try discriminate H. exact H.
Defined.

(** X3: on a first call, when the secret store answers with a
    [SecretString], whether or not a [SecretBinary] comes with it, the
    address stored is ["https://"] followed by that string, [secret] holds
    the string, [decodedBinarySecret] is not touched, the store was called
    once, and the message of an event with a [detail] is posted, once, to
    that address. *)
Theorem X3_text_secret_cold_start :
  forall (host : Host) (cfg : Config) (w : World) (e : Event) (d : Detail)
         (st : Proc) (data : SecretData) (s : string),
    truthy (webhookUrl st) = false ->
    truthy (webhookUrlSecretArn cfg) = true ->
    secret_reply w = SecretOk data ->
    SecretString data = Some s ->
    detail e = Some d ->
    proc (handler cfg w e st)
    = {| webhookUrl := JStr ("https://" ++ s); secret := JStr s;
         decodedBinarySecret := decodedBinarySecret st |}
    /\ secret_calls (trace (handler cfg w e st)) = 1%nat
    /\ post_urls (trace (handler cfg w e st)) = ["https://" ++ s]
    /\ (exists m, render cfg e = Ok m
                  /\ posted (trace (handler cfg w e st)) = [m])
    /\ outcome (handler cfg w e st) = outcome (onResponse (http_response w) st).
Proof.
  intros host cfg w e d st data s Hu Ha Hw Hs Hd.
  destruct (render_detail cfg e d Hd) as (a & Hm & _).
  rewrite (handler_resolving cfg w e st Hu Ha), Hw.
  unfold onSecretValue, set_webhookUrl, set_secret. rewrite Hs. run_monad.
  rewrite !processEvent_run, Hm. cbn [webhookUrl outcome trace proc].
  cbn [secret_calls post_urls posted].
  destruct (onResponse_run (http_response w)
              {| webhookUrl := JStr (String "h" (String "t" (String "t"
                   (String "p" (String "s" (String ":" (String "/"
                   (String "/" s))))))));
                 secret := JStr s;
                 decodedBinarySecret := decodedBinarySecret st |})
    as (_ & Hp & Hpu & Hsc).
  rewrite Hp, Hpu, Hsc. repeat split; auto.
  - exists {| channel := slackChannel cfg; attachments := [a] |}. auto.
  - apply onResponse_same.
Qed.

Lemma X3_text_secret_cold_start_witness :
  proc (@handler NodeHost.node_host sample_cfg
          (text_secret_world (respond 200 "OK")) sample_event init_proc)
  = cached_proc
  /\ secret_calls (trace (@handler NodeHost.node_host sample_cfg
                            (text_secret_world (respond 200 "OK"))
                            sample_event init_proc)) = 1%nat
  /\ post_urls (trace (@handler NodeHost.node_host sample_cfg
                         (text_secret_world (respond 200 "OK")) sample_event
                         init_proc))
     = ["https://hooks.slack.com/services/T/B/x"]
  /\ (exists m, @render NodeHost.node_host sample_cfg sample_event = Ok m
                /\ posted (trace (@handler NodeHost.node_host sample_cfg
                                    (text_secret_world (respond 200 "OK"))
                                    sample_event init_proc)) = [m])
  /\ outcome (@handler NodeHost.node_host sample_cfg
                (text_secret_world (respond 200 "OK")) sample_event init_proc)
     = Ok JNull.
Proof.
  apply (X3_text_secret_cold_start NodeHost.node_host sample_cfg
           (text_secret_world (respond 200 "OK")) sample_event sample_detail
           init_proc
           {| SecretString := Some "hooks.slack.com/services/T/B/x";
              SecretBinary := None |}
           "hooks.slack.com/services/T/B/x");
    reflexivity.
Defined.

(** X4: an event without a [detail] member makes [processEvent] throw a
    TypeError before anything is posted.  With the address set, the
    invocation leaves the process as it was; on a first call that gets a
    [SecretString], the address has been stored by the time of the throw,
    so the secret store is not called again afterwards. *)
Theorem X4_event_without_detail :
  forall (host : Host) (cfg : Config) (w : World) (e : Event) (st : Proc),
    detail e = None ->
    posted (trace (handler cfg w e st)) = []
    /\ (truthy (webhookUrl st) = true ->
        handler cfg w e st
        = {| outcome := Throw TypeError; proc := st; trace := [] |})
    /\ (forall data s,
           truthy (webhookUrl st) = false ->
           truthy (webhookUrlSecretArn cfg) = true ->
           secret_reply w = SecretOk data ->
           SecretString data = Some s ->
           handler cfg w e st
           = {| outcome := Throw TypeError;
                proc := {| webhookUrl := JStr ("https://" ++ s);
                           secret := JStr s;
                           decodedBinarySecret := decodedBinarySecret st |};
                trace := [GetSecretValue (webhookUrlSecretArn cfg)] |}).
Proof.
  intros host cfg w e st Hd.
  pose proof (render_no_detail cfg e Hd) as Hr.
  split; [|split].
  - destruct (handler_posted cfg w e st) as [Hn|(m & u & Hm & _)];
      [exact Hn | congruence].
  - intros Hc. rewrite (handler_cached cfg w e st Hc), processEvent_run, Hr.
    reflexivity.
  - intros data s Hu Ha Hw Hs.
    rewrite (handler_resolving cfg w e st Hu Ha), Hw.
    unfold onSecretValue, set_webhookUrl, set_secret. rewrite Hs. run_monad.
    rewrite !processEvent_run, Hr. reflexivity.
Qed.

Lemma X4_event_without_detail_witness :
  posted (trace (@handler NodeHost.node_host sample_cfg
                   (text_secret_world (respond 200 "OK")) no_detail_event
                   cached_proc)) = []
  /\ @handler NodeHost.node_host sample_cfg
       (text_secret_world (respond 200 "OK")) no_detail_event cached_proc
     = {| outcome := Throw TypeError; proc := cached_proc; trace := [] |}.
Proof.
  destruct (X4_event_without_detail NodeHost.node_host sample_cfg
              (text_secret_world (respond 200 "OK")) no_detail_event
              cached_proc eq_refl) as (Hp & Hc & _).
  split; [exact Hp | exact (Hc eq_refl)].
Defined.

(** ** The process *)

Lemma prefix_append (s t : string) : prefix s (s ++ t) = true.
Proof.
  induction s as [|c s IH]; simpl.
  - destruct t; reflexivity.
  - destruct (ascii_dec c c) as [_|n]; [exact IH | contradiction].
Qed.

Lemma post_urls_nil (t : list effect) : posted t = [] -> post_urls t = [].
Proof.
  induction t as [|x t IH]; [reflexivity|].
  destruct x; cbn [posted post_urls]; auto; discriminate.
Qed.

(** X5: in a process that starts with its three variables undefined, after
    every invocation of every sequence either nothing has been assigned or
    [webhookUrl] is ["https://"] followed by the text of [secret]; and
    every address that is posted to starts with ["https://"]. *)
Theorem X5_address_is_https :
  forall (host : Host) (cfg : Config) (l : list (World * Event)),
    Forall (fun r =>
              cache_consistent (proc r)
              /\ forall u, In u (post_urls (trace r)) ->
                           prefix "https://" u = true)
           (invocations cfg l init_proc).
Proof.
  intros host cfg l.
  assert (Hi : cache_consistent init_proc)
    by (left; repeat split; reflexivity).
  revert Hi. generalize init_proc as st.
  induction l as [|[w e] l IH]; intros st Hi; cbn [invocations];
    [constructor|].
  pose proof (handler_consistent cfg w e st Hi) as Hi'.
  constructor; [|apply IH, Hi'].
  split; [exact Hi'|]. intros u Hu.
  destruct (handler_posted cfg w e st) as [Hn|(m & u' & _ & Hw & _ & Hus)].
  - rewrite (post_urls_nil _ Hn) in Hu. contradiction.
  - rewrite Hus in Hu. destruct Hu as [<-|[]].
    destruct Hi' as [(Hx & _)|Hx]; [congruence|].
    assert (Hu : u' = "https://" ++ ToString (secret (proc (handler cfg w e st))))
      by congruence.
    rewrite Hu. apply prefix_append.
Qed.

(** X6: in a process that started with its variables undefined and has no
    address yet, a secret that comes as [SecretBinary] alone is decoded into
    [decodedBinarySecret] and [secret] stays undefined, so that the address
    stored, and posted to for an event with a [detail], is
    ["https://undefined"] whatever the binary value is. *)
Theorem X6_binary_secret_address :
  forall (host : Host) (cfg : Config) (l : list (World * Event)) (w : World)
         (e : Event) (d : Detail) (b : string),
    truthy (webhookUrl (final_proc cfg l init_proc)) = false ->
    truthy (webhookUrlSecretArn cfg) = true ->
    secret_reply w = SecretOk {| SecretString := None; SecretBinary := Some b |} ->
    detail e = Some d ->
    proc (handler cfg w e (final_proc cfg l init_proc))
    = {| webhookUrl := JStr "https://undefined"; secret := JUndefined;
         decodedBinarySecret := JStr (Buffer_base64_ascii b) |}
    /\ post_urls (trace (handler cfg w e (final_proc cfg l init_proc)))
       = ["https://undefined"].
Proof.
  intros host cfg l w e d b Hu Ha Hw Hd.
  pose proof (final_proc_unset cfg l Hu) as Hs.
  destruct (render_detail cfg e d Hd) as (a & Hm & _).
  rewrite (handler_resolving cfg w e _ Hu Ha), Hw.
  unfold onSecretValue, set_webhookUrl, set_decodedBinarySecret. run_monad.
  rewrite Hs. cbn [ToString append].
  rewrite !processEvent_run, Hm. cbn [webhookUrl outcome trace proc post_urls].
  destruct (onResponse_run (http_response w)
              {| webhookUrl := JStr "https://undefined";
                 secret := JUndefined;
                 decodedBinarySecret := JStr (Buffer_base64_ascii b) |})
    as (_ & _ & Hpu & _).
  rewrite Hpu. split; reflexivity.
Qed.

Lemma X6_binary_secret_address_witness :
  proc (@handler NodeHost.node_host sample_cfg
          (binary_secret_world (respond 200 "OK")) sample_event init_proc)
  = {| webhookUrl := JStr "https://undefined"; secret := JUndefined;
       decodedBinarySecret := JStr "hooks.slack.com/services/T/B/x" |}
  /\ post_urls (trace (@handler NodeHost.node_host sample_cfg
                         (binary_secret_world (respond 200 "OK"))
                         sample_event init_proc))
     = ["https://undefined"].
Proof.
  apply (X6_binary_secret_address NodeHost.node_host sample_cfg []
           (binary_secret_world (respond 200 "OK")) sample_event
           sample_detail "aG9va3Muc2xhY2suY29tL3NlcnZpY2VzL1QvQi94");
    reflexivity.
Defined.

(** X7: one invocation calls the secret store exactly when it finds no
    address and a secret identifier is configured, and then as its first
    effect, before any post; it calls it at most once and posts at most
    once. *)
Theorem X7_invocation_effects :
  forall (host : Host) (cfg : Config) (w : World) (e : Event) (st : Proc),
    secret_calls (trace (handler cfg w e st))
    = (if negb (truthy (webhookUrl st)) && truthy (webhookUrlSecretArn cfg)
       then 1 else 0)%nat
    /\ (List.length (posted (trace (handler cfg w e st))) <= 1)%nat
    /\ exists t,
         secret_calls t = O
         /\ trace (handler cfg w e st)
            = if negb (truthy (webhookUrl st)) && truthy (webhookUrlSecretArn cfg)
              then GetSecretValue (webhookUrlSecretArn cfg) :: t
              else t.
Proof.
  intros host cfg w e st.
  split; [|split].
  - destruct (truthy (webhookUrl st)) eqn:Hc; cbn [negb andb].
    + rewrite (handler_cached cfg w e st Hc). apply processEvent_secret_calls.
    + destruct (truthy (webhookUrlSecretArn cfg)) eqn:Ha.
      * rewrite (handler_resolving cfg w e st Hc Ha).
        destruct (onSecretValue_run (secret_reply w) st) as (_ & _ & Hsc & _).
        destruct (outcome (onSecretValue (secret_reply w) st));
          cbn [trace secret_calls]; [|now rewrite Hsc].
        now rewrite secret_calls_app, Hsc, processEvent_secret_calls.
      * now rewrite (handler_unconfigured cfg w e st Hc Ha).
  - destruct (handler_posted cfg w e st) as [Hn|(m & u & _ & _ & Hm & _)].
    + rewrite Hn. simpl. lia.
    + rewrite Hm. simpl. lia.
  - destruct (truthy (webhookUrl st)) eqn:Hc; cbn [negb andb].
    + exists (trace (handler cfg w e st)). split; [|reflexivity].
      rewrite (handler_cached cfg w e st Hc). apply processEvent_secret_calls.
    + destruct (truthy (webhookUrlSecretArn cfg)) eqn:Ha.
      * rewrite (handler_resolving cfg w e st Hc Ha).
        destruct (onSecretValue_run (secret_reply w) st) as (_ & _ & Hsc & _).
        destruct (outcome (onSecretValue (secret_reply w) st)); cbn [trace];
          eexists; (split; [|reflexivity]); [|exact Hsc].
        now rewrite secret_calls_app, Hsc, processEvent_secret_calls.
      * rewrite (handler_unconfigured cfg w e st Hc Ha).
        exists []. split; reflexivity.
Qed.

(** X8: whenever an invocation of the handler has posted, on a first call
    as with the address already set, what its callback receives is decided
    by the status of the response: [null] below 500, with a line on the
    error console from 400 on, and from 500 on the text that carries the
    status and the status message. *)
Theorem X8_handler_status_classification :
  forall (host : Host) (cfg : Config) (w : World) (e : Event) (st : Proc),
    posted (trace (handler cfg w e st)) <> [] ->
    (statusCode (http_response w) < 500 ->
     outcome (handler cfg w e st) = Ok JNull)
    /\ (500 <= statusCode (http_response w) ->
        outcome (handler cfg w e st)
        = Ok (JStr ("Server error when processing message: "
                    ++ show_int (statusCode (http_response w)) ++ " - "
                    ++ statusMessage (http_response w)))).
Proof.
  intros host cfg w e st Hp.
  destruct (handler_delivered cfg w e st Hp) as (-> & _).
  unfold onResponse.
  destruct (Z.ltb_spec (statusCode (http_response w)) 400);
    [|destruct (Z.ltb_spec (statusCode (http_response w)) 500)];
    run_monad; split; intros; try lia; reflexivity.
Qed.

Lemma X8_handler_status_classification_witness :
  outcome (@handler NodeHost.node_host sample_cfg
             (text_secret_world (respond 404 "Not Found")) sample_event
             init_proc) = Ok JNull
  /\ outcome (@handler NodeHost.node_host sample_cfg
                (text_secret_world (respond 502 "Bad Gateway")) sample_event
                init_proc)
     = Ok (JStr "Server error when processing message: 502 - Bad Gateway").
Proof.
  split.
  - refine (proj1 (X8_handler_status_classification NodeHost.node_host
                     sample_cfg (text_secret_world (respond 404 "Not Found"))
                     sample_event init_proc _) _).
    + vm_compute. discriminate.
    + unfold text_secret_world, respond; cbn [http_response statusCode]; lia.
  - refine (proj2 (X8_handler_status_classification NodeHost.node_host
                     sample_cfg (text_secret_world (respond 502 "Bad Gateway"))
                     sample_event init_proc _) _).
    + vm_compute. discriminate.
    + unfold text_secret_world, respond; cbn [http_response statusCode]; lia.
Defined.

(** X9: after a post, what the callback receives and what is written to the
    console depend on the response alone: two runs of [processEvent] that
    posted and got the same response agree on both, whatever the events,
    the configurations and the addresses were. *)
Theorem X9_outcome_reads_response_only :
  forall (host : Host) (cfg1 cfg2 : Config) (w1 w2 : World) (e1 e2 : Event)
         (st1 st2 : Proc),
    http_response w1 = http_response w2 ->
    posted (trace (processEvent cfg1 w1 e1 st1)) <> [] ->
    posted (trace (processEvent cfg2 w2 e2 st2)) <> [] ->
    outcome (processEvent cfg1 w1 e1 st1) = outcome (processEvent cfg2 w2 e2 st2)
    /\ console (trace (processEvent cfg1 w1 e1 st1))
       = console (trace (processEvent cfg2 w2 e2 st2)).
Proof.
  intros host cfg1 cfg2 w1 w2 e1 e2 st1 st2 Hr H1 H2.
  destruct (processEvent_delivered cfg1 w1 e1 st1 H1) as (m1 & u1 & _ & _ & ->).
  destruct (processEvent_delivered cfg2 w2 e2 st2 H2) as (m2 & u2 & _ & _ & ->).
  cbn [outcome trace console]. rewrite Hr.
  destruct (onResponse_same (http_response w2) st1 st2) as (-> & ->).
  split; reflexivity.
Qed.

Lemma X9_outcome_reads_response_only_witness :
  outcome (@processEvent NodeHost.node_host sample_cfg
             (text_secret_world (respond 404 "Not Found")) sample_event
             cached_proc)
  = outcome (@processEvent NodeHost.node_host unconfigured_cfg
               (throttled_world (respond 404 "Not Found")) pipeline_event
               {| webhookUrl := JStr "https://undefined"; secret := JUndefined;
                  decodedBinarySecret := JUndefined |})
  /\ console (trace (@processEvent NodeHost.node_host sample_cfg
                       (text_secret_world (respond 404 "Not Found"))
                       sample_event cached_proc))
     = console (trace (@processEvent NodeHost.node_host unconfigured_cfg
                         (throttled_world (respond 404 "Not Found"))
                         pipeline_event
                         {| webhookUrl := JStr "https://undefined";
                            secret := JUndefined;
                            decodedBinarySecret := JUndefined |})).
Proof.
  apply (X9_outcome_reads_response_only NodeHost.node_host sample_cfg
           unconfigured_cfg (text_secret_world (respond 404 "Not Found"))
           (throttled_world (respond 404 "Not Found")) sample_event
           pipeline_event cached_proc
           {| webhookUrl := JStr "https://undefined"; secret := JUndefined;
              decodedBinarySecret := JUndefined |}).
  - reflexivity.
  - vm_compute. discriminate.
  - vm_compute. discriminate.
Defined.

(** ** More on the message *)

(** X10: in all three shapes of the message the channel is the configured
    one, the link of the title is the console address made from the region
    and the pipeline of the event, the footer is the detail type and the
    region of the event, and the text alone is marked as markdown.  The
    region is the one of the event, not the one of the configuration: of
    the configuration only the channel enters the message. *)
Theorem X10_message_frame :
  forall (host : Host) (cfg : Config) (e : Event) (d : Detail),
    detail e = Some d ->
    (exists a,
        render cfg e = Ok {| channel := slackChannel cfg; attachments := [a] |}
        /\ title_link a
           = "https://console.aws.amazon.com/codepipeline/home?region="
             ++ ToString (region e) ++ "#/view/" ++ ToString (pipeline d)
        /\ footer a = ToString (detail_type e) ++ " | " ++ ToString (region e)
        /\ mrkdwn_in a = ["text"])
    /\ forall cfg', slackChannel cfg' = slackChannel cfg ->
                    render cfg' e = render cfg e.
Proof.
  intros host cfg e d Hd. split.
  - unfold render. rewrite Hd.
    destruct (truthy (action d)); [|destruct (truthy (stage d))];
      eexists; repeat split; reflexivity.
  - intros cfg' Hc. unfold render. rewrite Hd, Hc. reflexivity.
Qed.

Lemma X10_message_frame_witness :
  (exists a,
      @render NodeHost.node_host sample_cfg sample_event
      = Ok {| channel := JStr "#builds"; attachments := [a] |}
      /\ title_link a
         = "https://console.aws.amazon.com/codepipeline/home?region=us-east-1#/view/P"
      /\ footer a = "CodePipeline Action Execution State Change | us-east-1"
      /\ mrkdwn_in a = ["text"])
  /\ forall cfg', slackChannel cfg' = JStr "#builds" ->
                  @render NodeHost.node_host cfg' sample_event
                  = @render NodeHost.node_host sample_cfg sample_event.
Proof.
  exact (X10_message_frame NodeHost.node_host sample_cfg sample_event
           sample_detail eq_refl).
Defined.

Lemma append_assoc (a b c : string) : (a ++ b) ++ c = a ++ (b ++ c).
Proof. induction a as [|x a IH]; simpl; [reflexivity | now rewrite IH]. Qed.

(** X11: the fallback text names, between double quotes, the action and the
    stage when the message is about an action, the stage when it is about a
    stage, and in every shape the pipeline and the region, and ends with the
    state. *)
Theorem X11_fallback_text :
  forall (host : Host) (cfg : Config) (e : Event) (d : Detail),
    detail e = Some d ->
    exists a,
      render cfg e = Ok {| channel := slackChannel cfg; attachments := [a] |}
      /\ fallback a
         = (if truthy (action d) then
              "The action " ++ quoted (action d) ++ " of the stage "
              ++ quoted (stage d) ++ " for CodePipeline "
            else if truthy (stage d) then
              "The stage " ++ quoted (stage d) ++ " for CodePipeline "
            else "The CodePipeline ")
           ++ quoted (pipeline d) ++ " in region " ++ quoted (region e)
           ++ " has " ++ ToString (state d) ++ ".".
Proof.
  intros host cfg e d Hd. unfold render. rewrite Hd.
  destruct (truthy (action d)); [|destruct (truthy (stage d))];
    eexists; (split; [reflexivity|]); cbn [fallback];
    rewrite ?append_assoc; reflexivity.
Qed.

Lemma X11_fallback_text_witness :
  exists a,
    @render NodeHost.node_host sample_cfg sample_event
    = Ok {| channel := JStr "#builds"; attachments := [a] |}
    /\ fallback a
       = "The action " ++ dquote ++ "Build" ++ dquote ++ " of the stage "
         ++ dquote ++ "S" ++ dquote ++ " for CodePipeline " ++ dquote ++ "P"
         ++ dquote ++ " in region " ++ dquote ++ "us-east-1" ++ dquote
         ++ " has FAILED.".
Proof.
  exact (X11_fallback_text NodeHost.node_host sample_cfg sample_event
           sample_detail eq_refl).
Defined.

(** The colour tells the class of the state. *)
Lemma severity_colour (v : jsval) :
  (fst (severity v) = "#d13212" <-> v = JStr "FAILED")
  /\ (fst (severity v) = "#1d8102" <-> v = JStr "SUCCEEDED")
  /\ (fst (severity v) = "#0073bb"
      <-> v = JStr "STARTED" \/ v = JStr "RESUMED").
Proof.
  destruct v as [| |s];
    try (repeat split; intros H; try destruct H as [H|H]; discriminate H).
  unfold severity, strict_eq_str.
  repeat match goal with
         | |- context [s =? ?k] =>
             destruct (String.eqb_spec s k) as [->|?]
         end;
    cbn [fst]; repeat split; intros H;
    try destruct H as [H|H]; try discriminate H; try congruence; auto.
Qed.

(** X12: the colour of the attachment identifies the class of the state:
    it is the red one only for the state FAILED, the green one only for
    SUCCEEDED and the blue one only for STARTED and RESUMED, in exactly
    these spellings; every other state, and a missing one, is gray. *)
Theorem X12_colour_identifies_state :
  forall (host : Host) (cfg : Config) (e : Event) (d : Detail),
    detail e = Some d ->
    exists a,
      render cfg e = Ok {| channel := slackChannel cfg; attachments := [a] |}
      /\ (color a = "#d13212" <-> state d = JStr "FAILED")
      /\ (color a = "#1d8102" <-> state d = JStr "SUCCEEDED")
      /\ (color a = "#0073bb"
          <-> state d = JStr "STARTED" \/ state d = JStr "RESUMED")
      /\ (state d <> JStr "FAILED" -> state d <> JStr "SUCCEEDED" ->
          state d <> JStr "STARTED" -> state d <> JStr "RESUMED" ->
          color a = "#d5dbdb").
Proof.
  intros host cfg e d Hd.
  destruct (render_detail cfg e d Hd) as (a & Hr & Hc & _).
  exists a. split; [exact Hr|]. rewrite Hc.
  destruct (severity_colour (state d)) as (Hred & Hgreen & Hblue).
  repeat split; try apply Hred; try apply Hgreen; try apply Hblue.
  intros H1 H2 H3 H4.
  destruct (state d) as [| |s]; try reflexivity.
  unfold severity, strict_eq_str.
  repeat match goal with
         | |- context [s =? ?k] =>
             destruct (String.eqb_spec s k) as [->|?]
         end;
    try reflexivity; congruence.
Qed.

Lemma X12_colour_identifies_state_witness :
  exists a,
    @render NodeHost.node_host sample_cfg sample_event
    = Ok {| channel := JStr "#builds"; attachments := [a] |}
    /\ color a = "#d13212".
Proof.
  destruct (X12_colour_identifies_state NodeHost.node_host sample_cfg
              sample_event sample_detail eq_refl) as (a & Hr & Hred & _).
  exists a. split; [exact Hr|]. apply Hred. reflexivity.
Defined.

(** X13: a member that is missing from the [detail] is written into the
    message as the word [undefined]: a missing state gives the default gray
    with the text ending in [*undefined*], and a message about an action
    whose stage is missing has the title [pipeline | undefined]. *)
Theorem X13_missing_members :
  forall (host : Host) (cfg : Config) (e : Event) (d : Detail),
    detail e = Some d ->
    exists a,
      render cfg e = Ok {| channel := slackChannel cfg; attachments := [a] |}
      /\ (state d = JUndefined ->
          color a = "#d5dbdb"
          /\ text a = if truthy (action d)
                      then ":grey_exclamation: " ++ ToString (action d)
                           ++ " *undefined*"
                      else ":grey_exclamation: *undefined*")
      /\ (truthy (action d) = true -> stage d = JUndefined ->
          title a = ToString (pipeline d) ++ " | undefined").
Proof.
  intros host cfg e d Hd. unfold render. rewrite Hd.
  destruct (truthy (action d)); [|destruct (truthy (stage d))];
    eexists; (split; [reflexivity|]); cbn [color text title];
    (split; [intros ->; split; reflexivity|]);
    intros Ha Hs; try discriminate Ha; rewrite Hs; reflexivity.
Qed.

Lemma X13_missing_members_witness :
  exists a,
    @render NodeHost.node_host sample_cfg
      (event_of (JStr "CodePipeline Action Execution State Change")
                (JStr "us-east-1") JUndefined (JStr "Build") JUndefined
                (JStr "P") JUndefined)
    = Ok {| channel := JStr "#builds"; attachments := [a] |}
    /\ color a = "#d5dbdb"
    /\ text a = ":grey_exclamation: Build *undefined*"
    /\ title a = "P | undefined".
Proof.
  destruct (X13_missing_members NodeHost.node_host sample_cfg
              (event_of (JStr "CodePipeline Action Execution State Change")
                        (JStr "us-east-1") JUndefined (JStr "Build")
                        JUndefined (JStr "P") JUndefined)
              _ eq_refl) as (a & Hr & Hs & Ht).
  exists a. split; [exact Hr|].
  destruct (Hs eq_refl) as (Hc & Hx).
  split; [exact Hc|]. split; [exact Hx|]. exact (Ht eq_refl eq_refl).
Defined.

(** X14: an event without a [time] still gives a message, whose [ts] is
    NaN, and a [time] that is [null] gives the [ts] 0; this does not depend
    on how the host parses dates. *)
Theorem X14_time_missing_or_null :
  forall (host : Host) (cfg : Config) (e : Event) (d : Detail),
    detail e = Some d ->
    exists a,
      render cfg e = Ok {| channel := slackChannel cfg; attachments := [a] |}
      /\ (time e = JUndefined -> ts a = nan)
      /\ (time e = JNull -> ts a = 0%float).
Proof.
  intros host cfg e d Hd.
  destruct (render_detail cfg e d Hd) as (a & Hr & _ & _ & Ht).
  exists a. split; [exact Hr|]. rewrite Ht.
  split; intros ->; vm_compute; reflexivity.
Qed.

Lemma X14_time_missing_or_null_witness :
  exists a,
    @render NodeHost.node_host sample_cfg pipeline_event
    = Ok {| channel := JStr "#builds"; attachments := [a] |}
    /\ ts a = nan.
Proof.
  destruct (X14_time_missing_or_null NodeHost.node_host sample_cfg
              pipeline_event _ eq_refl) as (a & Hr & Hu & _).
  exists a. split; [exact Hr|]. exact (Hu eq_refl).
Defined.

(** ** Invocations one after another *)

(** X15: when an invocation has posted, the next invocation on the same
    event, as a retry after a status from 500 on would be, does not call
    the secret store, leaves the process as it is, and posts the same
    message to the same address. *)
Theorem X15_retry_reuses_address :
  forall (host : Host) (cfg : Config) (w1 w2 : World) (e : Event) (st : Proc),
    posted (trace (handler cfg w1 e st)) <> [] ->
    secret_calls (trace (handler cfg w2 e (proc (handler cfg w1 e st)))) = O
    /\ proc (handler cfg w2 e (proc (handler cfg w1 e st)))
       = proc (handler cfg w1 e st)
    /\ posted (trace (handler cfg w2 e (proc (handler cfg w1 e st))))
       = posted (trace (handler cfg w1 e st))
    /\ post_urls (trace (handler cfg w2 e (proc (handler cfg w1 e st))))
       = post_urls (trace (handler cfg w1 e st)).
Proof.
  intros host cfg w1 w2 e st Hp.
  destruct (handler_delivered cfg w1 e st Hp) as (_ & Ht).
  destruct (handler_posted cfg w1 e st) as [Hn|(m & u & Hm & Hw & -> & ->)];
    [contradiction|].
  rewrite (handler_cached cfg w2 e _ Ht).
  split; [apply processEvent_secret_calls|].
  split; [apply processEvent_proc|].
  rewrite processEvent_run, Hm, Hw. cbn [trace posted post_urls].
  destruct (onResponse_run (http_response w2) (proc (handler cfg w1 e st)))
    as (_ & -> & -> & _).
  split; reflexivity.
Qed.

Lemma X15_retry_reuses_address_witness :
  secret_calls
    (trace (@handler NodeHost.node_host sample_cfg
              (text_secret_world (respond 200 "OK")) sample_event
              (proc (@handler NodeHost.node_host sample_cfg
                       (text_secret_world (respond 503 "Service Unavailable"))
                       sample_event init_proc)))) = O
  /\ proc (@handler NodeHost.node_host sample_cfg
             (text_secret_world (respond 200 "OK")) sample_event
             (proc (@handler NodeHost.node_host sample_cfg
                      (text_secret_world (respond 503 "Service Unavailable"))
                      sample_event init_proc)))
     = cached_proc
  /\ posted (trace (@handler NodeHost.node_host sample_cfg
                      (text_secret_world (respond 200 "OK")) sample_event
                      (proc (@handler NodeHost.node_host sample_cfg
                               (text_secret_world
                                  (respond 503 "Service Unavailable"))
                               sample_event init_proc))))
     = [sample_message]
  /\ post_urls (trace (@handler NodeHost.node_host sample_cfg
                         (text_secret_world (respond 200 "OK")) sample_event
                         (proc (@handler NodeHost.node_host sample_cfg
                                  (text_secret_world
                                     (respond 503 "Service Unavailable"))
                                  sample_event init_proc))))
     = ["https://hooks.slack.com/services/T/B/x"].
Proof.
  apply (X15_retry_reuses_address NodeHost.node_host sample_cfg
           (text_secret_world (respond 503 "Service Unavailable"))
           (text_secret_world (respond 200 "OK")) sample_event init_proc).
  vm_compute. discriminate.
Defined.
